(** * restful.py: a command-line REST client

    A shallow embedding of [RestfulClient] ([__init__], [send_request],
    [process_response], [dump_output]) and of [main] from the parsed
    arguments on (src/restful.py), together with the parts of the Python
    runtime they call: [print], [exit], [open], [json.dump] /
    [json.dumps] with [indent=2], [json.load], [csv.writer(...).writerow],
    [str.endswith] and [requests.Response.raise_for_status].

    Conventions.
    - A Python [str] is a list of Unicode code points ([N]).
    - A parsed payload is a [pyobj]: [None], [bool], [int], [str], [list]
      or [dict] (insertion-ordered, keys are [str]).  Python [float]s are
      outside this development.
    - The console is the list of the arguments of the [print] calls, oldest
      first; the file system is a finite map from paths to file contents.
      Both are text: the encoding of characters to bytes is not modelled.
    - Whether a file can be opened for writing is a fact of the
      environment, [open_error].
    - [exit(1)] raises [SystemExit], which no [except Exception] clause
      catches; other exceptions carry the text [str(err)] prints. *)

From Stdlib Require Import ZArith NArith Ascii String DecimalZ DecimalFacts.
From stdpp Require Import base option list gmap.

Local Open Scope N_scope.

(** ** Text *)

Abbreviation str := (list N).

(** [lit "abc"] is the Python string literal ['abc'] (ASCII only). *)
Definition lit (s : string) : str := List.map N_of_ascii (list_ascii_of_string s).

Definition QUOTE : N := 34.       (* the double quote character *)
Definition APOSTROPHE : N := 39.
Definition BACKSLASH : N := 92.
Definition COMMA : N := 44.
Definition LF : N := 10.
Definition CR : N := 13.
Definition SPACE : N := 32.

(** [sep.join(parts)] *)
Fixpoint join (sep : str) (parts : list str) : str :=
  match parts with
  | [] => []
  | [p] => p
  | p :: ps => p ++ sep ++ join sep ps
  end.

(** [s.endswith(suffix)] *)
Definition endswith (s suffix : str) : bool := bool_decide (suffix `suffix_of` s).

(** Decimal digits of [int.__repr__] / [str(int)]. *)
Fixpoint uint_chars (d : Decimal.uint) : str :=
  match d with
  | Decimal.Nil => []
  | Decimal.D0 d => 48 :: uint_chars d
  | Decimal.D1 d => 49 :: uint_chars d
  | Decimal.D2 d => 50 :: uint_chars d
  | Decimal.D3 d => 51 :: uint_chars d
  | Decimal.D4 d => 52 :: uint_chars d
  | Decimal.D5 d => 53 :: uint_chars d
  | Decimal.D6 d => 54 :: uint_chars d
  | Decimal.D7 d => 55 :: uint_chars d
  | Decimal.D8 d => 56 :: uint_chars d
  | Decimal.D9 d => 57 :: uint_chars d
  end.

Definition int_repr (z : Z) : str :=
  match Z.to_int z with
  | Decimal.Pos d => uint_chars d
  | Decimal.Neg d => 45 :: uint_chars d
  end.

(** [format(d, 'x')] for one hexadecimal digit. *)
Definition hexdigit (d : N) : N := if d <? 10 then 48 + d else 87 + d.

(** ['{0:04x}'.format(n)] for [n < 0x10000]; ['{0:02x}'], ['{0:08x}']. *)
Definition hex2 (n : N) : str := [hexdigit (n / 16 mod 16); hexdigit (n mod 16)].
Definition hex4 (n : N) : str := hex2 (n / 256 mod 256) ++ hex2 (n mod 256).
Definition hex8 (n : N) : str := hex4 (n / 65536 mod 65536) ++ hex4 (n mod 65536).

(** ** Parsed payloads *)

#[local] Unset Elimination Schemes.
Inductive pyobj : Type :=
  | PNone
  | PBool (b : bool)
  | PInt (z : Z)
  | PStr (s : str)
  | PList (l : list pyobj)
  | PDict (items : list (str * pyobj)).
#[local] Set Elimination Schemes.

(** [type(o).__name__] *)
Definition type_name (o : pyobj) : str :=
  match o with
  | PNone => lit "NoneType"
  | PBool _ => lit "bool"
  | PInt _ => lit "int"
  | PStr _ => lit "str"
  | PList _ => lit "list"
  | PDict _ => lit "dict"
  end.

(** ** json.dumps(obj, indent=2)

    json/encoder.py of CPython 3.11: [py_encode_basestring_ascii] and
    [_make_iterencode] with [_indent = '  '], [_item_separator = ','] and
    [_key_separator = ': '] (the defaults of [JSONEncoder] when [indent] is
    given). *)

(** [ESCAPE_ASCII]: a backslash, a double quote, or any character outside
    the range from space to tilde. *)
Definition escape_ascii_match (c : N) : bool :=
  (c =? BACKSLASH) || (c =? QUOTE) || (c <? 32) || (126 <? c).

(** The [replace] callback: [ESCAPE_DCT], else [\uXXXX], else a surrogate pair. *)
Definition escape_replace (c : N) : str :=
  if c =? BACKSLASH then [BACKSLASH; BACKSLASH]
  else if c =? QUOTE then [BACKSLASH; QUOTE]
  else if c =? 8 then BACKSLASH :: lit "b"
  else if c =? 12 then BACKSLASH :: lit "f"
  else if c =? 10 then BACKSLASH :: lit "n"
  else if c =? 13 then BACKSLASH :: lit "r"
  else if c =? 9 then BACKSLASH :: lit "t"
  else if c <? 0x10000 then BACKSLASH :: lit "u" ++ hex4 c
  else
    let n := c - 0x10000 in
    let s1 := N.lor 0xd800 (N.land (N.shiftr n 10) 0x3ff) in
    let s2 := N.lor 0xdc00 (N.land n 0x3ff) in
    BACKSLASH :: lit "u" ++ hex4 s1 ++ BACKSLASH :: lit "u" ++ hex4 s2.

Definition escape_char (c : N) : str :=
  if escape_ascii_match c then escape_replace c else [c].

Definition escape_body (s : str) : str := flat_map escape_char s.

Definition encode_basestring_ascii (s : str) : str :=
  QUOTE :: escape_body s ++ [QUOTE].

(** ['\n' + _indent * level] *)
Definition newline_indent (level : nat) : str := LF :: repeat SPACE (2 * level).

Definition item_separator (level : nat) : str := COMMA :: newline_indent level.

Fixpoint iterencode (level : nat) (o : pyobj) : str :=
  match o with
  | PStr s => encode_basestring_ascii s
  | PNone => lit "null"
  | PBool true => lit "true"
  | PBool false => lit "false"
  | PInt z => int_repr z
  | PList [] => lit "[]"
  | PList l =>
      lit "[" ++ newline_indent (S level)
        ++ join (item_separator (S level)) (List.map (iterencode (S level)) l)
        ++ newline_indent level ++ lit "]"
  | PDict [] => lit "{}"
  | PDict items =>
      lit "{" ++ newline_indent (S level)
        ++ join (item_separator (S level))
             (List.map (fun kv => encode_basestring_ascii kv.1 ++ lit ": "
                                    ++ iterencode (S level) kv.2) items)
        ++ newline_indent level ++ lit "}"
  end.

Definition json_dumps (o : pyobj) : str := iterencode 0 o.

(** ** json.load

    json/decoder.py and json/scanner.py of CPython 3.11 ([scanstring],
    [JSONObject], [JSONArray], [_scan_once], [JSONDecoder.decode]) with the
    default hooks, as the C scanner runs them: hexadecimal escapes are four
    characters of [0-9a-fA-F], digits are ASCII.  A position in the document
    is the text that remains; [None] is a [JSONDecodeError], or a document
    with a float in it ([pyobj] has none).  Each loop gets the length of
    what it reads as fuel, one unit per character at most. *)

(** [WHITESPACE_STR] *)
Definition is_ws (c : N) : bool := (c =? SPACE) || (c =? 9) || (c =? LF) || (c =? CR).

(** [WHITESPACE.match(s, end).end()] *)
Fixpoint skip_ws (s : str) : str :=
  match s with
  | c :: r => if is_ws c then skip_ws r else s
  | [] => []
  end.

Definition hexval (c : N) : option N :=
  if (48 <=? c) && (c <=? 57) then Some (c - 48)
  else if (97 <=? c) && (c <=? 102) then Some (c - 87)
  else if (65 <=? c) && (c <=? 70) then Some (c - 55)
  else None.

(** [_decode_uXXXX] *)
Definition decode_uXXXX (s : str) : option (N * str) :=
  match s with
  | x3 :: x2 :: x1 :: x0 :: r =>
      h3 ← hexval x3; h2 ← hexval x2; h1 ← hexval x1; h0 ← hexval x0;
      Some (((h3 * 16 + h2) * 16 + h1) * 16 + h0, r)
  | _ => None
  end.

(** The table [BACKSLASH] of the decoder. *)
Definition unescape (esc : N) : option N :=
  if esc =? QUOTE then Some QUOTE
  else if esc =? BACKSLASH then Some BACKSLASH
  else if esc =? 47 then Some 47
  else if esc =? 98 then Some 8
  else if esc =? 102 then Some 12
  else if esc =? 110 then Some 10
  else if esc =? 114 then Some 13
  else if esc =? 116 then Some 9
  else None.

Definition high_surrogate (c : N) : bool := (0xd800 <=? c) && (c <=? 0xdbff).
Definition low_surrogate (c : N) : bool := (0xdc00 <=? c) && (c <=? 0xdfff).

(** One escape sequence, after its backslash. *)
Definition scan_escape (s : str) : option (N * str) :=
  match s with
  | [] => None
  | esc :: r =>
      if esc =? 117 then
        '(uni, r1) ← decode_uXXXX r;
        match r1 with
        | b :: u :: r2 =>
            if high_surrogate uni && (b =? BACKSLASH) && (u =? 117) then
              '(uni2, r3) ← decode_uXXXX r2;
              if low_surrogate uni2
              then Some (0x10000 + N.lor (N.shiftl (uni - 0xd800) 10) (uni2 - 0xdc00), r3)
              else Some (uni, r1)
            else Some (uni, r1)
        | _ => Some (uni, r1)
        end
      else
        char ← unescape esc; Some (char, r)
  end.

(** [scanstring(s, end)], [strict]: [s] starts after the opening quote. *)
Fixpoint scanstring (fuel : nat) (s : str) : option (str * str) :=
  match fuel, s with
  | O, _ | _, [] => None
  | S fuel, c :: r =>
      if c =? QUOTE then Some ([], r)
      else
        '(char, r1) ← (if c =? BACKSLASH then scan_escape r
                       else if c <? 32 then None
                       else Some (c, r));
        '(chars, r2) ← scanstring fuel r1;
        Some (char :: chars, r2)
  end.

Definition is_digit (c : N) : bool := (48 <=? c) && (c <=? 57).

Definition push_digit (c : N) (d : Decimal.uint) : Decimal.uint :=
  match c with
  | 48 => Decimal.D0 d | 49 => Decimal.D1 d | 50 => Decimal.D2 d
  | 51 => Decimal.D3 d | 52 => Decimal.D4 d | 53 => Decimal.D5 d
  | 54 => Decimal.D6 d | 55 => Decimal.D7 d | 56 => Decimal.D8 d
  | _ => Decimal.D9 d
  end.

(** The longest run of digits at the head of [s]. *)
Fixpoint scan_digits (s : str) : Decimal.uint * str :=
  match s with
  | c :: r =>
      if is_digit c then let '(d, r') := scan_digits r in (push_digit c d, r')
      else (Decimal.Nil, s)
  | [] => (Decimal.Nil, [])
  end.

(** Whether a fraction or an exponent of [NUMBER_RE] matches at [s]. *)
Definition float_part (s : str) : bool :=
  match s with
  | c0 :: c1 :: r =>
      ((c0 =? 46) && is_digit c1)
      || (((c0 =? 101) || (c0 =? 69))
          && (is_digit c1
              || (((c1 =? 43) || (c1 =? 45))
                  && match r with d :: _ => is_digit d | [] => false end)))
  | _ => false
  end.

(** The integer group of [NUMBER_RE], and what follows it. *)
Definition match_integer (s : str) : option (Decimal.int * str) :=
  let '(sign, s1) :=
    match s with
    | c :: r => if c =? 45 then (Decimal.Neg, r) else (Decimal.Pos, s)
    | [] => (Decimal.Pos, s)
    end in
  match s1 with
  | c :: r =>
      if c =? 48 then Some (sign (Decimal.D0 Decimal.Nil), r)
      else if is_digit c then let '(d, r') := scan_digits s1 in Some (sign d, r')
      else None
  | [] => None
  end.

(** [s[idx:idx + len(word)] == word], and the text after it. *)
Fixpoint strip_prefix (word s : str) : option str :=
  match word, s with
  | [], _ => Some s
  | a :: word', b :: s' => if a =? b then strip_prefix word' s' else None
  | _ :: _, [] => None
  end.

(** [dict(pairs)]: a later pair replaces the value of an equal key. *)
Fixpoint dict_setitem (d : list (str * pyobj)) (k : str) (v : pyobj) : list (str * pyobj) :=
  match d with
  | [] => [(k, v)]
  | (k', v') :: d' =>
      if bool_decide (k' = k) then (k', v) :: d' else (k', v') :: dict_setitem d' k v
  end.

Definition dict (pairs : list (str * pyobj)) : list (str * pyobj) :=
  fold_left (fun d kv => dict_setitem d kv.1 kv.2) pairs [].

Fixpoint scan_once (fuel : nat) (s : str) : option (pyobj * str) :=
  match fuel, s with
  | O, _ | _, [] => None
  | S fuel, c :: r =>
      if c =? QUOTE then
        '(x, r1) ← scanstring (length r) r; Some (PStr x, r1)
      else if c =? 123 then
        (* JSONObject *)
        match skip_ws r with
        | c1 :: r1 =>
            if c1 =? 125 then Some (PDict [], r1)
            else if c1 =? QUOTE then
              '(pairs, r2) ← object_pairs fuel r1; Some (PDict (dict pairs), r2)
            else None
        | [] => None
        end
      else if c =? 91 then
        (* JSONArray *)
        match skip_ws r with
        | c1 :: r1 =>
            if c1 =? 93 then Some (PList [], r1)
            else '(vs, r2) ← array_values fuel (c1 :: r1); Some (PList vs, r2)
        | [] => None
        end
      else
        match strip_prefix (lit "null") s, strip_prefix (lit "true") s,
              strip_prefix (lit "false") s with
        | Some r1, _, _ => Some (PNone, r1)
        | _, Some r1, _ => Some (PBool true, r1)
        | _, _, Some r1 => Some (PBool false, r1)
        | _, _, _ =>
            '(i, r1) ← match_integer s;
            if float_part r1 then None else Some (PInt (Z.of_int i), r1)
        end
  end
with array_values (fuel : nat) (s : str) : option (list pyobj * str) :=
  match fuel with
  | O => None
  | S fuel =>
      '(value, r) ← scan_once fuel s;
      match skip_ws r with
      | c1 :: r1 =>
          if c1 =? 93 then Some ([value], r1)
          else if c1 =? COMMA then
            '(vs, r2) ← array_values fuel (skip_ws r1); Some (value :: vs, r2)
          else None
      | [] => None
      end
  end
with object_pairs (fuel : nat) (s : str) : option (list (str * pyobj) * str) :=
  match fuel with
  | O => None
  | S fuel =>
      '(key, r) ← scanstring (length s) s;
      match skip_ws r with
      | c1 :: r1 =>
          if c1 =? 58 then
            '(value, r2) ← scan_once fuel (skip_ws r1);
            match skip_ws r2 with
            | c2 :: r3 =>
                if c2 =? 125 then Some ([(key, value)], r3)
                else if c2 =? COMMA then
                  match skip_ws r3 with
                  | c3 :: r4 =>
                      if c3 =? QUOTE then
                        '(pairs, r5) ← object_pairs fuel r4;
                        Some ((key, value) :: pairs, r5)
                      else None
                  | [] => None
                  end
                else None
            | [] => None
            end
          else None
      | [] => None
      end
  end.

(** [JSONDecoder.decode]: one value, then only white space. *)
Definition json_loads (s : str) : option pyobj :=
  '(obj, r) ← scan_once (S (length s)) (skip_ws s);
  match skip_ws r with
  | [] => Some obj
  | _ :: _ => None
  end.

(** ** The process: console, file system, exceptions *)

Record world := World {
  console : list str;             (* arguments of the print calls so far *)
  files : gmap str str;           (* path -> content *)
  open_error : str -> option str  (* [Some msg]: [open(path, 'w')] raises
                                     an [OSError] whose [str] is [msg] *)
}.

Inductive exception :=
  | HTTPError (msg : str)         (* requests.exceptions.HTTPError *)
  | Exception (msg : str).        (* any other subclass of Exception *)

Definition exception_str (e : exception) : str :=
  match e with HTTPError msg | Exception msg => msg end.

Inductive outcome (A : Type) :=
  | Returns (a : A) (w : world)
  | SystemExit (code : Z) (w : world)
  | Raises (e : exception) (w : world).
Arguments Returns {A} a w.
Arguments SystemExit {A} code w.
Arguments Raises {A} e w.

Definition M (A : Type) : Type := world -> outcome A.

Definition ret {A} (a : A) : M A := fun w => Returns a w.

Definition bind {A B} (m : M A) (k : A -> M B) : M B :=
  fun w =>
    match m w with
    | Returns a w' => k a w'
    | SystemExit code w' => SystemExit code w'
    | Raises e w' => Raises e w'
    end.

Notation "x <- m ;; k" := (bind m (fun x => k))
  (at level 100, m at next level, right associativity).
Notation "m ;; k" := (bind m (fun _ => k))
  (at level 100, right associativity).

Definition raise {A} (e : exception) : M A := fun w => Raises e w.

(** [exit(code)] *)
Definition exit {A} (code : Z) : M A := fun w => SystemExit code w.

(** [try: m  except Exception as err: handler(err)] *)
Definition try_except {A} (m : M A) (handler : exception -> M A) : M A :=
  fun w =>
    match m w with
    | Raises e w' => handler e w'
    | o => o
    end.

(** [print(s)] *)
Definition echo (s : str) (w : world) : world :=
  World (console w ++ [s]) (files w) (open_error w).

Definition print (s : str) : M unit := fun w => Returns tt (echo s w).

(** [open(path, 'w')]: the file is created or truncated. *)
Definition store (path content : str) (w : world) : world :=
  World (console w) (<[path := content]> (files w)) (open_error w).

Definition open_w (path : str) : M unit :=
  fun w =>
    match open_error w path with
    | Some msg => Raises (Exception msg) w
    | None => Returns tt (store path [] w)
    end.

(** [f.write(s)] on the file opened at [path]. *)
Definition write (path : str) (s : str) : M unit :=
  fun w => Returns tt (store path (default [] (files w !! path) ++ s) w).

(** The exit status of the process and the state it leaves behind. *)
Definition exit_code {A} (o : outcome A) : Z :=
  match o with
  | Returns _ _ => 0
  | SystemExit code _ => code
  | Raises _ _ => 1
  end.

Definition final {A} (o : outcome A) : world :=
  match o with Returns _ w | SystemExit _ w | Raises _ w => w end.

(** ** The client *)

Record RestfulClient := {
  method : str;
  endpoint : str;
  data : option str;
  output : option str
}.

(** What the transport hands back: the fields of [requests.Response] the
    program reads.  [json] is the outcome of [response.json()]: the parsed
    body, or the text of the exception it raises. *)
Record Response := {
  status_code : Z;
  reason : str;
  url : str;
  text : str;
  json : str + pyobj
}.

Section Client.

(** [str.isprintable] on code points above 127, from the Unicode database
    of the interpreter. *)
Variable isprintable : N -> bool.

(** *** repr *)

Definition repr_char (quote c : N) : str :=
  if (c =? quote) || (c =? BACKSLASH) then [BACKSLASH; c]
  else if c =? 9 then BACKSLASH :: lit "t"
  else if c =? 10 then BACKSLASH :: lit "n"
  else if c =? 13 then BACKSLASH :: lit "r"
  else if (c <? 32) || (c =? 127) then BACKSLASH :: lit "x" ++ hex2 c
  else if c <? 127 then [c]
  else if isprintable c then [c]
  else if c <=? 0xff then BACKSLASH :: lit "x" ++ hex2 c
  else if c <=? 0xffff then BACKSLASH :: lit "u" ++ hex4 c
  else BACKSLASH :: lit "U" ++ hex8 c.

Definition str_repr (s : str) : str :=
  let quote :=
    if bool_decide (APOSTROPHE ∈ s) && negb (bool_decide (QUOTE ∈ s))
    then QUOTE else APOSTROPHE in
  quote :: flat_map (repr_char quote) s ++ [quote].

Fixpoint repr (o : pyobj) : str :=
  match o with
  | PNone => lit "None"
  | PBool true => lit "True"
  | PBool false => lit "False"
  | PInt z => int_repr z
  | PStr s => str_repr s
  | PList l => lit "[" ++ join (lit ", ") (List.map repr l) ++ lit "]"
  | PDict items =>
      lit "{" ++ join (lit ", ")
                   (List.map (fun kv => str_repr kv.1 ++ lit ": " ++ repr kv.2) items)
        ++ lit "}"
  end.

(** *** csv.writer(csv_file).writerow, excel dialect *)

(** The text of a field: a [str] as it is, [None] as the empty string,
    anything else through [str(field)]. *)
Definition csv_field (o : pyobj) : str :=
  match o with
  | PStr s => s
  | PNone => []
  | _ => repr o
  end.

(** QUOTE_MINIMAL: a field is quoted when it holds the delimiter, the quote
    character or a character of the line terminator. *)
Definition csv_special (c : N) : bool :=
  (c =? COMMA) || (c =? QUOTE) || (c =? CR) || (c =? LF).

Definition csv_quote (s : str) : str :=
  if existsb csv_special s
  then QUOTE :: flat_map (fun c => if c =? QUOTE then [QUOTE; QUOTE] else [c]) s ++ [QUOTE]
  else s.

(** One record; a record made of a single empty field is written quoted. *)
Definition csv_record (fields : list pyobj) : str :=
  match join [COMMA] (List.map (fun f => csv_quote (csv_field f)) fields), fields with
  | [], _ :: _ => [QUOTE; QUOTE; CR; LF]
  | line, _ => line ++ [CR; LF]
  end.

Definition writerow (path : str) (fields : list pyobj) : M unit :=
  write path (csv_record fields).

(** [o.keys()] and [o.values()]: only a dict has them. *)
Definition attribute_error {A} (o : pyobj) (name : str) : M A :=
  raise (Exception ([APOSTROPHE] ++ type_name o ++ lit "' object has no attribute '"
                      ++ name ++ [APOSTROPHE])).

Definition keys (o : pyobj) : M (list pyobj) :=
  match o with
  | PDict items => ret (List.map (fun kv => PStr kv.1) items)
  | _ => attribute_error o (lit "keys")
  end.

Definition values (o : pyobj) : M (list pyobj) :=
  match o with
  | PDict items => ret (List.map snd items)
  | _ => attribute_error o (lit "values")
  end.

(** [for row in data: writer.writerow(row.values())] *)
Fixpoint write_rows (path : str) (rows : list pyobj) : M unit :=
  match rows with
  | [] => ret tt
  | row :: rows' =>
      fields <- values row ;;
      writerow path fields ;;
      write_rows path rows'
  end.

(** *** RestfulClient.dump_output *)

(** [with open(self.output, 'w') as json_file: json.dump(data, json_file, indent=2)] *)
Definition write_json (out : str) (data : pyobj) : M unit :=
  open_w out ;;
  write out (json_dumps data).

(** The [.csv] branch: [isinstance(data, list) and data] guards the writer. *)
Definition write_csv (out : str) (data : pyobj) : M unit :=
  match data with
  | PList ((first :: _) as rows) =>
      open_w out ;;
      header <- keys first ;;
      writerow out header ;;
      write_rows out rows
  | _ => print (lit "Invalid data format for CSV output.")
  end.

(** [except Exception as err] of [dump_output] *)
Definition output_error (err : exception) : M unit :=
  print (lit "Error while writing output: " ++ exception_str err) ;;
  exit 1.

Definition dump_output (self : RestfulClient) (data : pyobj) : M unit :=
  match output self with
  | Some ((_ :: _) as out) =>
      try_except
        (if endswith out (lit ".json") then write_json out data
         else if endswith out (lit ".csv") then write_csv out data
         else print (json_dumps data))
        output_error
  | _ => print (json_dumps data)
  end.

(** *** requests.Response.raise_for_status *)

Definition http_error_msg (response : Response) : str :=
  let code := status_code response in
  if ((400 <=? code) && (code <? 500))%Z then
    int_repr code ++ lit " Client Error: " ++ reason response
      ++ lit " for url: " ++ url response
  else if ((500 <=? code) && (code <? 600))%Z then
    int_repr code ++ lit " Server Error: " ++ reason response
      ++ lit " for url: " ++ url response
  else [].

Definition raise_for_status (response : Response) : M unit :=
  match http_error_msg response with
  | [] => ret tt
  | msg => raise (HTTPError msg)
  end.

(** [response.json()] *)
Definition response_json (response : Response) : M pyobj :=
  match json response with
  | inl msg => raise (Exception msg)
  | inr v => ret v
  end.

(** *** RestfulClient.process_response *)

(** [f"HTTP Status Code: {response.status_code}"] *)
Definition status_line (response : Response) : str :=
  lit "HTTP Status Code: " ++ int_repr (status_code response).

Definition process_response (self : RestfulClient) (response : Response) : M unit :=
  try_except
    (print (status_line response) ;;
     raise_for_status response ;;
     if bool_decide (method self = lit "get") then
       payload <- response_json response ;;
       dump_output self payload
     else if bool_decide (method self = lit "post") then
       payload <- response_json response ;;
       dump_output self payload ;;
       if (status_code response =? 201)%Z then
         print (lit "Post request successful.")
       else
         print (lit "Error: " ++ text response) ;;
         exit 1
     else ret tt)
    (fun err =>
       match err with
       | HTTPError http_err => print (lit "HTTP Error: " ++ http_err) ;; exit 1
       | Exception err => print (lit "Error: " ++ err) ;; exit 1
       end).

(** *** The output targets of the specification

    [OutputTarget] and its selection policy follow the words of the
    specification; [render] is what each target does with a payload. *)

Inductive OutputTarget :=
  | Stdout
  | JsonFile (path : str)
  | CsvFile (path : str).

Definition select_target (out : option str) : OutputTarget :=
  match out with
  | None => Stdout
  | Some path =>
      if endswith path (lit ".json") then JsonFile path
      else if endswith path (lit ".csv") then CsvFile path
      else Stdout
  end.

Definition render (target : OutputTarget) (data : pyobj) : M unit :=
  match target with
  | Stdout => print (json_dumps data)
  | JsonFile path => try_except (write_json path data) output_error
  | CsvFile path => try_except (write_csv path data) output_error
  end.

End Client.

(** ** What [response.json()] can return

    The strings of a parsed document are sequences of code points in which
    [scanstring] never leaves a high surrogate directly before a low one
    (it joins such a pair into one character), and [dict(pairs)] keeps one
    item per key. *)

Fixpoint str_ok (s : str) : bool :=
  match s with
  | [] => true
  | c :: r =>
      (c <=? 0x10FFFF)
      && negb (high_surrogate c && match r with c' :: _ => low_surrogate c' | [] => false end)
      && str_ok r
  end.

Fixpoint is_payload (o : pyobj) : bool :=
  match o with
  | PNone | PBool _ | PInt _ => true
  | PStr s => str_ok s
  | PList l => forallb is_payload l
  | PDict items =>
      bool_decide (NoDup items.*1)
      && forallb (fun kv => str_ok kv.1 && is_payload kv.2) items
  end.




(** The Unicode table of the examples: they hold ASCII text only. *)
Definition ascii_table : N -> bool := fun _ => false.

Definition empty_world : world := World [] ∅ (fun _ => None).

(** [isinstance(o, dict)], and the items of a dict. *)
Definition is_dict (o : pyobj) : bool :=
  match o with PDict _ => true | _ => false end.

Definition items_of (o : pyobj) : list (str * pyobj) :=
  match o with PDict items => items | _ => [] end.

(** ** Example runs *)

Definition posts_url : str := lit "https://jsonplaceholder.typicode.com/posts".

(** [get /posts], to [out.json] and to [out.csv]. *)
Definition get_json : RestfulClient :=
  {| method := lit "get"; endpoint := lit "/posts"; data := None;
     output := Some (lit "out.json") |}.
Definition get_csv : RestfulClient :=
  {| method := lit "get"; endpoint := lit "/posts"; data := None;
     output := Some (lit "out.csv") |}.

(** [post /posts], to standard output. *)
Definition post_stdout : RestfulClient :=
  {| method := lit "post"; endpoint := lit "/posts"; data := Some (lit "{}");
     output := None |}.

(** The payloads [[{"id": 1, "name": "a"}, {"id": 2, "name": "b"}]],
    [[{"a": 1}, {"b": 2, "c": 3}]], [[{"id": 1}]], [{"id": 1, "name": "a"}],
    [{"id": 101}] and [[1]]. *)
Definition two_rows : pyobj :=
  PList [PDict [(lit "id", PInt 1); (lit "name", PStr (lit "a"))];
         PDict [(lit "id", PInt 2); (lit "name", PStr (lit "b"))]].
Definition mixed_rows : list pyobj :=
  [PDict [(lit "a", PInt 1)]; PDict [(lit "b", PInt 2); (lit "c", PInt 3)]].
Definition one_post : pyobj := PDict [(lit "id", PInt 1); (lit "name", PStr (lit "a"))].
Definition created : pyobj := PDict [(lit "id", PInt 101)].
Definition numbers : pyobj := PList [PInt 1].

Definition respond (code : Z) (why : string) (body : str) (parsed : str + pyobj)
    : Response :=
  {| status_code := code; reason := lit why; url := posts_url; text := body;
     json := parsed |}.

(** A world in which [out.csv] already exists. *)
Definition world_with_csv : world :=
  World [] {[ lit "out.csv" := lit "kept" ]} (fun _ => None).

(** ** The transport, [send_request] and [main] *)

(** A call of [requests.get] or [requests.post]: the arguments the program
    passes. *)
Inductive verb := GET | POST.

Record Request := {
  req_verb : verb;
  req_url : str;
  req_data : option str;
  req_headers : list (str * str)
}.

Definition BASE_URL : str := lit "https://jsonplaceholder.typicode.com".

(** [RestfulClient.__init__] *)
Definition RestfulClient_init (m e : str) (d : option str) : RestfulClient :=
  {| method := m; endpoint := e; data := d; output := None |}.

(** [client.output = out] *)
Definition set_output (self : RestfulClient) (out : option str) : RestfulClient :=
  {| method := method self; endpoint := endpoint self; data := data self; output := out |}.

(** What [parser.parse_args()] returns. *)
Record Namespace := {
  args_method : str;
  args_endpoint : str;
  args_data : option str;
  args_output : option str
}.

Section Main.

Variable isprintable : N -> bool.

(** The network: the response to a call, or the text of the exception the
    call raises. *)
Variable transport : Request -> str + Response.

Definition requests_call (request : Request) : M Response :=
  match transport request with
  | inl msg => raise (Exception msg)
  | inr response => ret response
  end.

(** *** RestfulClient.send_request *)

Definition send_request (self : RestfulClient) : M (option Response) :=
  let url := BASE_URL ++ endpoint self in
  if bool_decide (method self = lit "get") then
    response <- requests_call
                  {| req_verb := GET; req_url := url; req_data := None; req_headers := [] |} ;;
    ret (Some response)
  else if bool_decide (method self = lit "post") then
    let headers := [(lit "Content-Type", lit "application/json")] in
    response <- requests_call
                  {| req_verb := POST; req_url := url; req_data := data self;
                     req_headers := headers |} ;;
    ret (Some response)
  else ret None.

(** [process_response] on what [send_request] returned. On [None] the
    first statement of the [try] reads [response.status_code], which raises
    [AttributeError]; the last handler prints it and exits. *)
Definition process_response_result (self : RestfulClient) (response : option Response)
    : M unit :=
  match response with
  | Some response => process_response isprintable self response
  | None =>
      print (lit "Error: 'NoneType' object has no attribute 'status_code'") ;;
      exit 1
  end.

(** *** main, from the parsed arguments on *)

(** The client [main] builds: [RestfulClient(args.method, args.endpoint,
    data=args.data)], then [client.output] from [args.output]. *)
Definition client_of (args : Namespace) : RestfulClient :=
  let client :=
    RestfulClient_init (args_method args) (args_endpoint args) (args_data args) in
  match args_output args with
  | Some ((_ :: _) as out) => set_output client (Some out)
  | _ => set_output client None
  end.

Definition main (args : Namespace) : M unit :=
  let client := client_of args in
  response <- send_request client ;;
  process_response_result client response.

End Main.

(** The example networks: one that answers every GET with the two rows and
    every POST with status 201, one that refuses every connection. *)
Definition answering : Request -> str + Response :=
  fun request =>
    match req_verb request with
    | GET => inr (respond 200 "OK" (json_dumps two_rows) (inr two_rows))
    | POST => inr (respond 201 "Created" (json_dumps created) (inr created))
    end.

Definition refusing : Request -> str + Response :=
  fun _ => inl (lit "Connection refused").

Definition args_get_json : Namespace :=
  {| args_method := lit "get"; args_endpoint := lit "/posts"; args_data := None;
     args_output := Some (lit "out.json") |}.

(** A computation is confined to [path] when it leaves every other file as
    it was, and does not change which files can be opened. *)
Definition confined {A} (path : str) (m : M A) : Prop :=
  forall w,
    open_error (final (m w)) = open_error w
    /\ forall p, p <> path -> files (final (m w)) !! p = files w !! p.

(** The text of the [AttributeError] for [o.name]. *)
Definition no_attribute (o : pyobj) (name : str) : str :=
  [APOSTROPHE] ++ type_name o ++ lit "' object has no attribute '" ++ name ++ [APOSTROPHE].

(** The records [write_rows] writes for dicts. *)
Definition rows_text (isprintable : N -> bool) (rows : list pyobj) : str :=
  flat_map (fun row => csv_record isprintable (List.map snd (items_of row))) rows.

Definition header_text (isprintable : N -> bool) (first : pyobj) : str :=
  csv_record isprintable (List.map (fun kv => PStr kv.1) (items_of first)).

(** Printable ASCII, or a line feed. *)
Definition plain (c : N) : Prop := c = LF \/ 32 <= c <= 126.

(** The statuses on which [raise_for_status] raises. *)
Definition http_error (response : Response) : bool :=
  ((400 <=? status_code response) && (status_code response <? 600))%Z.

(** Whether a target takes a payload without failing: the file can be
    opened, and a non-empty list headed for a CSV file holds dicts only. *)
Definition accepts (target : OutputTarget) (data : pyobj) (w : world) : bool :=
  match target with
  | Stdout => true
  | JsonFile path => bool_decide (open_error w path = None)
  | CsvFile path =>
      match data with
      | PList ((_ :: _) as rows) =>
          bool_decide (open_error w path = None) && forallb is_dict rows
      | _ => true
      end
  end.

(** What a target that accepts a payload leaves behind. *)
Definition rendered (isprintable : N -> bool) (target : OutputTarget) (data : pyobj)
    (w : world) : world :=
  match target, data with
  | Stdout, _ => echo (json_dumps data) w
  | JsonFile path, _ => store path (json_dumps data) w
  | CsvFile path, PList ((first :: _) as rows) =>
      store path (header_text isprintable first ++ rows_text isprintable rows) w
  | CsvFile path, _ => echo (lit "Invalid data format for CSV output.") w
  end.

(** ** Auxiliary notions of the proofs *)

(** A computation is quiet when it never exits and only appends to the
    console. *)
Definition quiet {A} (m : M A) : Prop :=
  forall w,
    match m w with
    | SystemExit _ _ => False
    | Returns _ w' | Raises _ w' => exists lines, console w' = console w ++ lines
    end.

(** Induction on payloads, through the lists they nest. *)
Definition pyobj_ind (P : pyobj -> Prop)
    (HNone : P PNone) (HBool : forall b, P (PBool b)) (HInt : forall z, P (PInt z))
    (HStr : forall s, P (PStr s))
    (HList : forall l, Forall P l -> P (PList l))
    (HDict : forall items, Forall (fun kv => P kv.2) items -> P (PDict items)) :
  forall o, P o :=
  fix go (o : pyobj) : P o :=
    match o with
    | PNone => HNone
    | PBool b => HBool b
    | PInt z => HInt z
    | PStr s => HStr s
    | PList l =>
        HList l ((fix all (l : list pyobj) : Forall P l :=
                    match l with
                    | [] => List.Forall_nil P
                    | x :: l' => @List.Forall_cons _ P x l' (go x) (all l')
                    end) l)
    | PDict items =>
        HDict items ((fix all (l : list (str * pyobj)) : Forall (fun kv => P kv.2) l :=
                        match l with
                        | [] => List.Forall_nil _
                        | kv :: l' =>
                            @List.Forall_cons _ (fun kv => P kv.2) kv l' (go kv.2) (all l')
                        end) items)
    end.

(** [join sep (p :: ps)] is [p] followed by [join_tail sep ps]. *)
Definition join_tail (sep : str) (parts : list str) : str :=
  match parts with
  | [] => []
  | _ :: _ => sep ++ join sep parts
  end.

(** After a high surrogate escape, the text does not go on with the escape
    of a low surrogate. *)
Definition no_low_escape (rest : str) : Prop :=
  match rest with
  | b :: u :: r2 =>
      (b =? BACKSLASH) && (u =? 117) = true ->
      exists uni2 r3, decode_uXXXX r2 = Some (uni2, r3) /\ low_surrogate uni2 = false
  | _ => True
  end.

(** What follows a value in the output of the encoder: nothing, a comma or
    a line feed. *)
Definition delimited (rest : str) : Prop :=
  match rest with
  | [] => True
  | c :: _ => c = COMMA \/ c = LF
  end.

(** Decoding the encoding of [o], at any indentation and before any
    delimited rest, gives [o] back and leaves the rest. *)
Definition round_trips (o : pyobj) : Prop :=
  is_payload o = true ->
  forall level rest fuel,
    delimited rest ->
    (length (iterencode level o) < fuel)%nat ->
    scan_once fuel (iterencode level o ++ rest) = Some (o, rest).

(** * Properties *)

(** ** Decoding what the encoder wrote *)

Ltac case_cmp :=
  repeat match goal with
  | |- context [N.ltb ?a ?b] => destruct (N.ltb_spec a b)
  | |- context [N.leb ?a ?b] => destruct (N.leb_spec a b)
  | |- context [N.eqb ?a ?b] => destruct (N.eqb_spec a b)
  end.

Lemma hexval_hexdigit d : d < 16 -> hexval (hexdigit d) = Some d.
Proof.
  intros Hd. unfold hexval, hexdigit.
  destruct (N.ltb_spec d 10); case_cmp; simpl; try lia; f_equal; lia.
Qed.

Lemma decode_hex4 n r : n < 65536 -> decode_uXXXX (hex4 n ++ r) = Some (n, r).
Proof.
  intros Hn. unfold hex4, hex2, decode_uXXXX. simpl.
  rewrite !hexval_hexdigit by (apply N.mod_lt; lia). simpl.
  do 2 f_equal.
  pose proof (N.div_mod n 256). pose proof (N.mod_lt n 256).
  pose proof (N.div_mod (n / 256 mod 256) 16). pose proof (N.mod_lt (n / 256 mod 256) 16).
  pose proof (N.div_mod (n mod 256) 16). pose proof (N.mod_lt (n mod 256) 16).
  assert (n / 256 < 256) by (apply N.Div0.div_lt_upper_bound; lia).
  rewrite (N.mod_small (n / 256) 256) in * by lia.
  assert ((n / 256) / 16 < 16) by (apply N.Div0.div_lt_upper_bound; lia).
  assert ((n mod 256) / 16 < 16) by (apply N.Div0.div_lt_upper_bound; lia).
  rewrite (N.mod_small (n / 256 / 16) 16) by lia.
  rewrite (N.mod_small (n mod 256 / 16) 16) by lia.
  lia.
Qed.

Lemma land_shiftl_small a b k : b < 2 ^ k -> N.land (N.shiftl a k) b = 0.
Proof.
  intros Hb. apply N.bits_inj. intros i. rewrite N.land_spec, N.bits_0.
  destruct (N.lt_ge_cases i k) as [Hi|Hi].
  - rewrite N.shiftl_spec_low by exact Hi. reflexivity.
  - rewrite <- (N.mod_small b (2 ^ k)) by exact Hb.
    rewrite N.mod_pow2_bits_high by exact Hi. apply andb_false_r.
Qed.

Lemma lor_shiftl_small a b k : b < 2 ^ k -> N.lor (N.shiftl a k) b = a * 2 ^ k + b.
Proof.
  intros Hb. rewrite <- N.lxor_lor by (apply land_shiftl_small; exact Hb).
  rewrite <- N.add_nocarry_lxor by (apply land_shiftl_small; exact Hb).
  rewrite N.shiftl_mul_pow2. reflexivity.
Qed.

(** The two halves of a surrogate pair. *)
Lemma surrogate_pair c :
  0x10000 <= c <= 0x10FFFF ->
  exists q r,
    q < 1024 /\ r < 1024 /\ c = 0x10000 + q * 1024 + r
    /\ N.lor 0xd800 (N.land (N.shiftr (c - 0x10000) 10) 0x3ff) = 0xd800 + q
    /\ N.lor 0xdc00 (N.land (c - 0x10000) 0x3ff) = 0xdc00 + r.
Proof.
  intros Hc. set (n := c - 0x10000).
  assert (Hn : n < 1048576) by (unfold n; lia).
  assert (Hq : n / 1024 < 1024) by (apply N.Div0.div_lt_upper_bound; lia).
  assert (Hr : n mod 1024 < 1024) by (apply N.mod_lt; lia).
  assert (Hs : N.land (N.shiftr n 10) 0x3ff = n / 1024).
  { change 0x3ff with (N.ones 10). rewrite N.land_ones, N.shiftr_div_pow2.
    change (2 ^ 10) with 1024. apply N.mod_small; exact Hq. }
  assert (Ht : N.land n 0x3ff = n mod 1024).
  { change 0x3ff with (N.ones 10). rewrite N.land_ones. reflexivity. }
  rewrite Hs, Ht.
  change 0xd800 with (N.shiftl 54 10). change 0xdc00 with (N.shiftl 55 10).
  rewrite !lor_shiftl_small by (change (2 ^ 10) with 1024; assumption).
  change (2 ^ 10) with 1024. change (N.shiftl 54 10) with (54 * 1024).
  change (N.shiftl 55 10) with (55 * 1024).
  pose proof (N.div_mod n 1024 ltac:(lia)) as Hdm.
  exists (n / 1024), (n mod 1024).
  generalize dependent (n / 1024). generalize dependent (n mod 1024).
  intros r Hr q Hq Hdm. unfold n in *. repeat split; lia.
Qed.

Lemma scan_escape_replace c rest :
  c <= 0x10FFFF ->
  escape_ascii_match c = true ->
  (high_surrogate c = true -> no_low_escape rest) ->
  exists tl, escape_replace c = BACKSLASH :: tl /\ scan_escape (tl ++ rest) = Some (c, rest).
Proof.
  intros Hc Hm Hfollow. unfold escape_replace.
  destruct (N.eqb_spec c BACKSLASH) as [->|H1]; [eexists; split; [reflexivity|reflexivity]|].
  destruct (N.eqb_spec c QUOTE) as [->|H2]; [eexists; split; [reflexivity|reflexivity]|].
  destruct (N.eqb_spec c 8) as [->|H3]; [eexists; split; [reflexivity|reflexivity]|].
  destruct (N.eqb_spec c 12) as [->|H4]; [eexists; split; [reflexivity|reflexivity]|].
  destruct (N.eqb_spec c 10) as [->|H5]; [eexists; split; [reflexivity|reflexivity]|].
  destruct (N.eqb_spec c 13) as [->|H6]; [eexists; split; [reflexivity|reflexivity]|].
  destruct (N.eqb_spec c 9) as [->|H7]; [eexists; split; [reflexivity|reflexivity]|].
  destruct (N.ltb_spec c 0x10000) as [Hlt|Hge].
  - eexists; split; [reflexivity|].
    change (lit "u" ++ hex4 c) with (117 :: hex4 c). cbn [app].
    unfold scan_escape. change (117 =? 117) with true. cbn match.
    rewrite decode_hex4 by exact Hlt. cbn.
    destruct rest as [|b [|u r2]]; try reflexivity.
    destruct (high_surrogate c && (b =? BACKSLASH) && (u =? 117)) eqn:E; [|reflexivity].
    apply andb_prop in E as [E Eu]. apply andb_prop in E as [Eh Eb].
    destruct (Hfollow Eh) as (uni2 & r3 & Hd & Hlow).
    { rewrite Eb, Eu. reflexivity. }
    rewrite Hd. cbn. rewrite Hlow. reflexivity.
  - destruct (surrogate_pair c ltac:(lia)) as (q & r & Hq & Hr & Hn & Hs1 & Hs2).
    eexists; split; [reflexivity|]. cbv zeta. rewrite Hs1, Hs2.
    change (lit "u" ++ hex4 (0xd800 + q) ++ BACKSLASH :: lit "u" ++ hex4 (0xdc00 + r))
      with (117 :: hex4 (0xd800 + q) ++ BACKSLASH :: 117 :: hex4 (0xdc00 + r)).
    cbn [app]. rewrite <- app_assoc. cbn [app].
    unfold scan_escape. change (117 =? 117) with true. cbn match.
    rewrite decode_hex4 by lia. cbn [mbind option_bind].
    assert (Hh : high_surrogate (0xd800 + q) = true).
    { unfold high_surrogate. apply andb_true_intro; split; apply N.leb_le; lia. }
    rewrite Hh. change (BACKSLASH =? BACKSLASH) with true. cbn [andb].
    rewrite decode_hex4 by lia. cbn [mbind option_bind].
    assert (Hl : low_surrogate (0xdc00 + r) = true).
    { unfold low_surrogate. apply andb_true_intro; split; apply N.leb_le; lia. }
    rewrite Hl. do 2 f_equal.
    replace (0xd800 + q - 0xd800) with q by lia.
    replace (0xdc00 + r - 0xdc00) with r by lia.
    rewrite lor_shiftl_small by (change (2 ^ 10) with 1024; exact Hr).
    change (2 ^ 10) with 1024. lia.
Qed.

Lemma no_low_escape_char c tail :
  c <= 0x10FFFF -> low_surrogate c = false -> no_low_escape (escape_char c ++ tail).
Proof.
  intros Hc Hlow. unfold escape_char.
  destruct (escape_ascii_match c) eqn:Em.
  - unfold escape_replace.
    repeat match goal with
    | |- context [if N.eqb c ?k then _ else _] =>
        destruct (N.eqb_spec c k); [intros E; discriminate E|]
    end.
    destruct (N.ltb_spec c 0x10000) as [Hlt|Hge].
    + intros _. exists c, tail. split; [apply decode_hex4; exact Hlt|exact Hlow].
    + destruct (surrogate_pair c ltac:(lia)) as (q & r & Hq & Hr & Hn & Hs1 & Hs2).
      cbv zeta. rewrite Hs1. intros _. eexists _, _. split.
      * cbn [app]. rewrite <- app_assoc. apply decode_hex4. lia.
      * unfold low_surrogate. apply andb_false_intro1. apply N.leb_gt. lia.
  - cbn [app]. destruct tail as [|u r2]; [exact I|].
    unfold escape_ascii_match in Em. intros E.
    apply andb_prop in E as [E _]. rewrite E in Em. discriminate Em.
Qed.

Lemma scanstring_escape_body s :
  str_ok s = true ->
  forall rest fuel, (length s < fuel)%nat ->
    scanstring fuel (escape_body s ++ QUOTE :: rest) = Some (s, rest).
Proof.
  induction s as [|c s IH]; intros Hok rest fuel Hf.
  - destruct fuel; [inversion Hf|]. reflexivity.
  - cbn [str_ok] in Hok.
    apply andb_prop in Hok as [Hok Hs]. apply andb_prop in Hok as [Hc Hpair].
    apply N.leb_le in Hc. apply negb_true_iff in Hpair.
    destruct fuel as [|fuel]; [inversion Hf|]. cbn [length] in Hf.
    unfold escape_body. cbn [flat_map]. fold (escape_body s). rewrite <- app_assoc.
    assert (Hfollow : high_surrogate c = true -> no_low_escape (escape_body s ++ QUOTE :: rest)).
    { intros Hh. rewrite Hh in Hpair. cbn [andb] in Hpair.
      destruct s as [|c' s']; [destruct rest; [exact I|intros E; discriminate E]|].
      unfold escape_body. cbn [flat_map]. rewrite <- app_assoc.
      cbn [str_ok] in Hs. apply andb_prop in Hs as [Hs _]. apply andb_prop in Hs as [Hc' _].
      apply N.leb_le in Hc'. apply no_low_escape_char; assumption. }
    unfold escape_char. destruct (escape_ascii_match c) eqn:Em.
    + destruct (scan_escape_replace c _ Hc Em Hfollow) as (tl & Htl & Hscan).
      rewrite Htl. cbn [app scanstring].
      change (BACKSLASH =? QUOTE) with false. change (BACKSLASH =? BACKSLASH) with true.
      cbn match. rewrite Hscan. cbn [mbind option_bind].
      rewrite (IH Hs) by lia. reflexivity.
    + unfold escape_ascii_match in Em.
      apply orb_false_elim in Em as [Em _]. apply orb_false_elim in Em as [Em E32].
      apply orb_false_elim in Em as [Eb Eq].
      cbn [app scanstring]. rewrite Eq, Eb, E32. cbn [mbind option_bind].
      rewrite (IH Hs) by lia. reflexivity.
Qed.

Lemma scan_digits_uint d rest :
  delimited rest -> scan_digits (uint_chars d ++ rest) = (d, rest).
Proof.
  intros Hrest.
  induction d; cbn [uint_chars app scan_digits];
    try (change (is_digit _) with true; cbn match; rewrite IHd; reflexivity).
  destruct rest as [|c r]; [reflexivity|].
  cbn [scan_digits]. destruct Hrest as [-> | ->]; reflexivity.
Qed.

Lemma to_int_shape z :
  match Z.to_int z with
  | Decimal.Pos d | Decimal.Neg d =>
      d = Decimal.D0 Decimal.Nil \/ (Decimal.nzhead d = d /\ d <> Decimal.Nil)
  end.
Proof.
  pose proof (DecimalZ.to_of (Z.to_int z)) as H. rewrite DecimalZ.of_to in H.
  destruct (Z.to_int z) as [d|d]; cbn in H.
  - injection H as H. unfold Decimal.unorm in H.
    destruct (Decimal.nzhead d) eqn:E; try (right; split; [congruence|congruence]).
    left. exact H.
  - destruct (Decimal.nzhead d) eqn:E; try discriminate H;
      right; split; congruence.
Qed.

Lemma uint_chars_head d :
  Decimal.nzhead d = d -> d <> Decimal.Nil ->
  exists c t, uint_chars d = c :: t /\ (c =? 48) = false /\ is_digit c = true
              /\ (c =? 45) = false.
Proof.
  intros Hnz Hnil.
  destruct d; try congruence; try (eexists _, _; repeat split; reflexivity).
  exfalso. exact (nzhead_nonzero _ _ Hnz).
Qed.

Lemma match_integer_repr z rest :
  delimited rest -> match_integer (int_repr z ++ rest) = Some (Z.to_int z, rest).
Proof.
  intros Hrest. unfold int_repr. pose proof (to_int_shape z) as Hshape.
  assert (Hdigits : forall (sign : Decimal.uint -> Decimal.int) d,
    d = Decimal.D0 Decimal.Nil \/ (Decimal.nzhead d = d /\ d <> Decimal.Nil) ->
    match uint_chars d ++ rest with
    | c :: r =>
        if c =? 48 then Some (sign (Decimal.D0 Decimal.Nil), r)
        else if is_digit c
             then let '(d', r') := scan_digits (uint_chars d ++ rest) in Some (sign d', r')
             else None
    | [] => None
    end = Some (sign d, rest)).
  { intros sign d [-> | [Hnz Hnil]]; [reflexivity|].
    destruct (uint_chars_head d Hnz Hnil) as (c & t & Heq & H48 & Hdig & _).
    rewrite (scan_digits_uint d rest Hrest). rewrite Heq. cbn [app].
    rewrite H48, Hdig. reflexivity. }
  destruct (Z.to_int z) as [d|d]; unfold match_integer.
  - assert (Hminus : match uint_chars d ++ rest with
                     | c :: r => if c =? 45 then (Decimal.Neg, r)
                                 else (Decimal.Pos, uint_chars d ++ rest)
                     | [] => (Decimal.Pos, uint_chars d ++ rest)
                     end = (Decimal.Pos, uint_chars d ++ rest)).
    { destruct Hshape as [-> | [Hnz Hnil]]; [reflexivity|].
      destruct (uint_chars_head d Hnz Hnil) as (c & t & Heq & _ & _ & H45).
      rewrite Heq. cbn [app]. rewrite H45. reflexivity. }
    rewrite Hminus. apply (Hdigits Decimal.Pos d Hshape).
  - cbn [app]. change (45 =? 45) with true. cbn match.
    apply (Hdigits Decimal.Neg d Hshape).
Qed.

Lemma delimited_not_float rest : delimited rest -> float_part rest = false.
Proof.
  destruct rest as [|c0 [|c1 r]]; try reflexivity.
  intros [-> | ->]; reflexivity.
Qed.

Lemma skip_ws_head c s : is_ws c = false -> skip_ws (c :: s) = c :: s.
Proof. intros H. cbn [skip_ws]. rewrite H. reflexivity. Qed.

Lemma skip_ws_spaces n s : skip_ws (repeat SPACE n ++ s) = skip_ws s.
Proof. induction n as [|n IH]; [reflexivity|exact IH]. Qed.

Lemma skip_ws_newline_indent level s : skip_ws (newline_indent level ++ s) = skip_ws s.
Proof. unfold newline_indent. cbn [app skip_ws]. change (is_ws LF) with true. cbn match. apply skip_ws_spaces. Qed.

Lemma int_repr_head z :
  exists c t, int_repr z = c :: t /\ (is_digit c = true \/ c = 45).
Proof.
  unfold int_repr. pose proof (to_int_shape z) as Hshape.
  destruct (Z.to_int z) as [d|d]; [|eexists _, _; split; [reflexivity|right; reflexivity]].
  destruct Hshape as [-> | [Hnz Hnil]]; [eexists _, _; split; [reflexivity|left; reflexivity]|].
  destruct (uint_chars_head d Hnz Hnil) as (c & t & Heq & _ & Hdig & _).
  exists c, t. split; [exact Heq|left; exact Hdig].
Qed.

(** Every encoded value starts with a character that is neither white space
    nor a closing bracket. *)
Lemma iterencode_head level o :
  exists c t, iterencode level o = c :: t /\ is_ws c = false /\ (c =? 93) = false.
Proof.
  destruct o as [|[|]|z|s|[|e l]|[|kv items]];
    try (eexists _, _; repeat split; reflexivity).
  destruct (int_repr_head z) as (c & t & Heq & Hc).
  exists c, t. split; [exact Heq|].
  destruct Hc as [Hd | ->]; [|split; reflexivity].
  unfold is_digit in Hd. apply andb_prop in Hd as [H1 H2].
  apply N.leb_le in H1. apply N.leb_le in H2. unfold is_ws, SPACE, LF, CR.
  split; case_cmp; try reflexivity; lia.
Qed.

Lemma skip_ws_iterencode level o tail :
  skip_ws (iterencode level o ++ tail) = iterencode level o ++ tail.
Proof.
  destruct (iterencode_head level o) as (c & t & Heq & Hws & _).
  rewrite Heq. apply skip_ws_head. exact Hws.
Qed.

Lemma join_cons sep p ps : join sep (p :: ps) = p ++ join_tail sep ps.
Proof. destruct ps; cbn [join join_tail]; [rewrite app_nil_r|]; reflexivity. Qed.

Lemma escape_char_length c : (1 <= length (escape_char c))%nat.
Proof.
  unfold escape_char, escape_replace.
  destruct (escape_ascii_match c); [|cbn; lia].
  repeat match goal with
  | |- context [if ?b then _ else _] => destruct b
  end; cbn [length]; lia.
Qed.

Lemma escape_body_length s : (length s <= length (escape_body s))%nat.
Proof.
  induction s as [|c s IH]; [reflexivity|].
  unfold escape_body in *. cbn [flat_map length]. rewrite length_app.
  pose proof (escape_char_length c). lia.
Qed.

Lemma scan_once_number fuel c t :
  is_digit c = true \/ c = 45 ->
  scan_once (S fuel) (c :: t) =
    '(i, r1) ← match_integer (c :: t);
    if float_part r1 then None else Some (PInt (Z.of_int i), r1).
Proof.
  intros Hc.
  assert (H : (c =? QUOTE) = false /\ (c =? 123) = false /\ (c =? 91) = false
              /\ (110 =? c) = false /\ (116 =? c) = false /\ (102 =? c) = false).
  { destruct Hc as [Hd | ->]; [|repeat split; reflexivity].
    unfold is_digit in Hd. apply andb_prop in Hd as [H1 H2].
    apply N.leb_le in H1. apply N.leb_le in H2. unfold QUOTE.
    repeat split; case_cmp; try reflexivity; lia. }
  destruct H as (H1 & H2 & H3 & H4 & H5 & H6).
  cbn [scan_once]. rewrite H1, H2, H3.
  change (lit "null") with [110; 117; 108; 108].
  change (lit "true") with [116; 114; 117; 101].
  change (lit "false") with [102; 97; 108; 115; 101].
  cbn [strip_prefix]. rewrite H4, H5, H6. reflexivity.
Qed.

Lemma array_values_join level es :
  forall e rest fuel,
    Forall round_trips (e :: es) ->
    forallb is_payload (e :: es) = true ->
    (length (join (item_separator (S level)) (List.map (iterencode (S level)) (e :: es))) + 1
       < fuel)%nat ->
    array_values fuel
      (join (item_separator (S level)) (List.map (iterencode (S level)) (e :: es))
         ++ newline_indent level ++ 93 :: rest)
    = Some (e :: es, rest).
Proof.
  induction es as [|e2 es IH]; intros e rest fuel Hall Hok Hfuel;
    inversion Hall as [|? ? He Hall']; subst;
    cbn [forallb] in Hok; apply andb_prop in Hok as [Hoke Hok'];
    cbn [List.map] in *; rewrite join_cons in *;
    (destruct fuel as [|fuel]; [inversion Hfuel|]); cbn [array_values].
  - cbn [join_tail] in *. rewrite app_nil_r in *.
    rewrite (He Hoke (S level) _ fuel) by (first [right; reflexivity | lia]).
    cbn [mbind option_bind]. rewrite skip_ws_newline_indent.
    reflexivity.
  - cbn [join_tail] in *. rewrite length_app in Hfuel. rewrite <- !app_assoc.
    unfold item_separator at 1. cbn [app].
    rewrite (He Hoke (S level) _ fuel) by (first [left; reflexivity | lia]).
    cbn [mbind option_bind].
    rewrite skip_ws_head by reflexivity.
    change (COMMA =? 93) with false. change (COMMA =? COMMA) with true. cbn match.
    rewrite skip_ws_newline_indent.
    assert (Hskip : forall tail,
      skip_ws (join (item_separator (S level))
                 (iterencode (S level) e2 :: List.map (iterencode (S level)) es) ++ tail)
      = join (item_separator (S level))
          (iterencode (S level) e2 :: List.map (iterencode (S level)) es) ++ tail).
    { intros tail. rewrite join_cons, <- app_assoc. apply skip_ws_iterencode. }
    rewrite Hskip.
    rewrite (IH e2 rest fuel Hall' Hok').
    + reflexivity.
    + unfold item_separator at 1 in Hfuel. rewrite !length_app in Hfuel.
      cbn [length] in Hfuel. cbn [List.map]. lia.
Qed.

Lemma dict_setitem_fresh d k v : k ∉ d.*1 -> dict_setitem d k v = d ++ [(k, v)].
Proof.
  induction d as [|[k' v'] d IH]; intros Hk; [reflexivity|].
  cbn [dict_setitem]. rewrite fmap_cons in Hk. apply not_elem_of_cons in Hk as [Hne Hk].
  rewrite bool_decide_eq_false_2 by (intros ->; apply Hne; reflexivity).
  rewrite IH by exact Hk. reflexivity.
Qed.

Lemma dict_nodup items : NoDup items.*1 -> dict items = items.
Proof.
  unfold dict.
  assert (H : forall acc, NoDup (acc.*1 ++ items.*1) ->
    fold_left (fun d kv => dict_setitem d kv.1 kv.2) items acc = acc ++ items).
  { induction items as [|[k v] items IH]; intros acc Hnd.
    - cbn. rewrite app_nil_r. reflexivity.
    - cbn [fold_left fst snd]. rewrite fmap_cons in Hnd.
      apply NoDup_app in Hnd as (Hacc & Hdisj & Hitems).
      rewrite dict_setitem_fresh.
      + rewrite IH.
        * rewrite <- app_assoc. reflexivity.
        * rewrite fmap_app. cbn [fmap list_fmap]. rewrite <- app_assoc. cbn [app].
          apply NoDup_app. repeat split; [exact Hacc|exact Hdisj|exact Hitems].
      + intros Hin. apply (Hdisj k Hin). left. }
  intros Hnd. apply (H []). exact Hnd.
Qed.

Lemma object_pairs_join level items :
  forall k v rest fuel,
    Forall (fun kv => round_trips kv.2) ((k, v) :: items) ->
    forallb (fun kv => str_ok kv.1 && is_payload kv.2) ((k, v) :: items) = true ->
    (length (join (item_separator (S level))
               (List.map (fun kv => encode_basestring_ascii kv.1 ++ lit ": "
                                      ++ iterencode (S level) kv.2) ((k, v) :: items))) + 1
       < fuel)%nat ->
    exists t,
      join (item_separator (S level))
        (List.map (fun kv => encode_basestring_ascii kv.1 ++ lit ": "
                               ++ iterencode (S level) kv.2) ((k, v) :: items))
      = QUOTE :: t
      /\ object_pairs fuel (t ++ newline_indent level ++ 125 :: rest)
         = Some ((k, v) :: items, rest).
Proof.
  induction items as [|[k2 v2] items IH]; intros k v rest fuel Hall Hok Hfuel;
    inversion Hall as [|? ? Hv Hall']; subst; cbn [snd] in Hv;
    cbn [forallb fst snd] in Hok; apply andb_prop in Hok as [Hokkv Hok'];
    apply andb_prop in Hokkv as [Hk Hokv];
    cbn [List.map fst snd] in *; rewrite join_cons in *;
    (destruct fuel as [|fuel]; [inversion Hfuel|]);
    unfold encode_basestring_ascii at 1; cbn [app]; eexists; (split; [reflexivity|]);
    cbn [object_pairs]; rewrite <- !app_assoc; cbn [app];
    rewrite scanstring_escape_body
      by (first [exact Hk | rewrite length_app; pose proof (escape_body_length k); cbn [length]; lia]);
    cbn [mbind option_bind app];
    change (lit ": " ++ ?x) with (58 :: 32 :: x);
    rewrite skip_ws_head by reflexivity; change (58 =? 58) with true; cbn match;
    cbn [skip_ws]; change (is_ws 32) with true; cbn match;
    rewrite skip_ws_iterencode.
  - cbn [join_tail] in *. cbn [app].
    rewrite (Hv Hokv (S level) _ fuel).
    + cbn [mbind option_bind]. rewrite skip_ws_newline_indent. reflexivity.
    + right; reflexivity.
    + rewrite app_nil_r, !length_app in Hfuel. lia.
  - cbn [join_tail] in *. rewrite <- !app_assoc. unfold item_separator at 1. cbn [app].
    rewrite (Hv Hokv (S level) _ fuel).
    + cbn [mbind option_bind]. rewrite skip_ws_head by reflexivity.
      change (COMMA =? 125) with false. change (COMMA =? COMMA) with true. cbn match.
      rewrite skip_ws_newline_indent.
      destruct (IH k2 v2 rest fuel Hall' Hok') as (t & Ht & Hpairs).
      { unfold item_separator at 1 in Hfuel. rewrite !length_app in Hfuel.
        cbn [length] in Hfuel. cbn [List.map fst snd]. lia. }
      cbn [List.map fst snd] in Ht. rewrite Ht. cbn [app].
      rewrite skip_ws_head by reflexivity. change (QUOTE =? QUOTE) with true. cbn match.
      rewrite Hpairs. reflexivity.
    + left; reflexivity.
    + rewrite !length_app in Hfuel. lia.
Qed.

Lemma scan_once_iterencode o : round_trips o.
Proof.
  induction o as [|b|z|s|l IH|items IH] using pyobj_ind;
    intros Hok level rest fuel Hrest Hfuel;
    (destruct fuel as [|fuel]; [inversion Hfuel|]).
  - reflexivity.
  - destruct b; reflexivity.
  - cbn [iterencode] in *.
    destruct (int_repr_head z) as (c & t & Heq & Hc).
    pose proof (match_integer_repr z rest Hrest) as Hm.
    rewrite Heq in *. cbn [app] in *.
    rewrite (scan_once_number fuel c (t ++ rest) Hc), Hm. cbn [mbind option_bind].
    rewrite (delimited_not_float rest Hrest), DecimalZ.of_to. reflexivity.
  - cbn [iterencode is_payload] in *. unfold encode_basestring_ascii.
    cbn [app scan_once]. change (QUOTE =? QUOTE) with true. cbn match.
    rewrite <- app_assoc. cbn [app].
    rewrite scanstring_escape_body; [reflexivity|exact Hok|].
    rewrite length_app. pose proof (escape_body_length s). cbn [length]. lia.
  - destruct l as [|e es]; [reflexivity|].
    cbn [iterencode is_payload] in *.
    change (lit "[" ++ ?x) with (91 :: x) in *. cbn [app scan_once].
    change (91 =? QUOTE) with false. change (91 =? 123) with false.
    change (91 =? 91) with true. cbn match.
    rewrite <- !app_assoc. rewrite skip_ws_newline_indent.
    change (lit "]" ++ rest) with (93 :: rest).
    cbn [length] in Hfuel. rewrite !length_app in Hfuel.
    change (length (lit "]")) with 1%nat in Hfuel.
    pose proof (array_values_join level es e rest fuel IH Hok ltac:(lia)) as Harr.
    cbn [List.map] in *. rewrite join_cons in *. rewrite <- !app_assoc in *.
    rewrite skip_ws_iterencode.
    destruct (iterencode_head (S level) e) as (c & t & Heq & _ & H93).
    rewrite Heq in *. cbn [app] in *. rewrite H93, Harr. reflexivity.
  - destruct items as [|[k v] items]; [reflexivity|].
    cbn [iterencode is_payload] in *. apply andb_prop in Hok as [Hnd Hok].
    apply bool_decide_eq_true_1 in Hnd.
    change (lit "{" ++ ?x) with (123 :: x) in *. cbn [app scan_once].
    change (123 =? QUOTE) with false. change (123 =? 123) with true. cbn match.
    rewrite <- !app_assoc. rewrite skip_ws_newline_indent.
    change (lit "}" ++ rest) with (125 :: rest).
    cbn [length] in Hfuel. rewrite !length_app in Hfuel.
    change (length (lit "}")) with 1%nat in Hfuel.
    destruct (object_pairs_join level items k v rest fuel IH Hok ltac:(lia))
      as (t & Ht & Hpairs).
    rewrite Ht. cbn [app]. rewrite skip_ws_head by reflexivity.
    change (QUOTE =? 125) with false. change (QUOTE =? QUOTE) with true. cbn match.
    rewrite Hpairs. cbn [mbind option_bind]. rewrite (dict_nodup _ Hnd). reflexivity.
Qed.

Lemma json_loads_dumps o : is_payload o = true -> json_loads (json_dumps o) = Some o.
Proof.
  intros Hok. unfold json_loads, json_dumps.
  pose proof (skip_ws_iterencode 0 o []) as Hskip. rewrite app_nil_r in Hskip.
  rewrite Hskip.
  pose proof (scan_once_iterencode o Hok 0%nat [] (S (length (iterencode 0 o))) I
                ltac:(lia)) as H.
  rewrite app_nil_r in H. rewrite H. reflexivity.
Qed.

(** ** What the decoder returns *)

















Section Properties.

Variable isprintable : N -> bool.

(** ** The effects of the building blocks *)

Lemma quiet_ret {A} (a : A) : quiet (ret a).
Proof. intros w. exists []. cbn. rewrite app_nil_r. reflexivity. Qed.

Lemma quiet_raise {A} e : quiet (@raise A e).
Proof. intros w. exists []. cbn. rewrite app_nil_r. reflexivity. Qed.

Lemma quiet_print s : quiet (print s).
Proof. intros w. exists [s]. reflexivity. Qed.

Lemma quiet_open_w path : quiet (open_w path).
Proof.
  intros w. unfold open_w. destruct (open_error w path);
    exists []; cbn; rewrite app_nil_r; reflexivity.
Qed.

Lemma quiet_write path s : quiet (write path s).
Proof. intros w. exists []. cbn. rewrite app_nil_r. reflexivity. Qed.

Lemma quiet_bind {A B} (m : M A) (k : A -> M B) :
  quiet m -> (forall a, quiet (k a)) -> quiet (bind m k).
Proof.
  intros Hm Hk w. unfold bind. specialize (Hm w).
  destruct (m w) as [a w1|code w1|e w1]; [|exact Hm|exact Hm].
  destruct Hm as [l1 H1]. specialize (Hk a w1).
  destruct (k a w1) as [b w2|code w2|e w2]; [|exact Hk|];
    destruct Hk as [l2 H2]; exists (l1 ++ l2); rewrite H2, H1, app_assoc; reflexivity.
Qed.

Lemma quiet_keys o : quiet (keys o).
Proof. destruct o; first [apply quiet_ret | apply quiet_raise]. Qed.

Lemma quiet_values o : quiet (values o).
Proof. destruct o; first [apply quiet_ret | apply quiet_raise]. Qed.

Lemma quiet_write_rows path rows : quiet (write_rows isprintable path rows).
Proof.
  induction rows as [|row rows IH]; [apply quiet_ret|].
  cbn [write_rows]. apply quiet_bind; [apply quiet_values|intros fields].
  apply quiet_bind; [apply quiet_write|intros _; exact IH].
Qed.

Lemma quiet_write_json out data : quiet (write_json out data).
Proof. apply quiet_bind; [apply quiet_open_w|intros _; apply quiet_write]. Qed.

Lemma quiet_write_csv out data : quiet (write_csv isprintable out data).
Proof.
  destruct data as [| | | |[|first rows]|]; try apply quiet_print.
  cbn [write_csv]. apply quiet_bind; [apply quiet_open_w|intros _].
  apply quiet_bind; [apply quiet_keys|intros header].
  apply quiet_bind; [apply quiet_write|intros _; apply quiet_write_rows].
Qed.

(** A quiet block under the handler of [dump_output] returns, or exits with
    status 1; either way it only appends to the console. *)
Lemma try_except_output_error (m : M unit) w :
  quiet m ->
  exists lines w',
    console w' = console w ++ lines
    /\ (try_except m output_error w = Returns tt w'
        \/ try_except m output_error w = SystemExit 1 w').
Proof.
  intros Hm. specialize (Hm w). unfold try_except.
  destruct (m w) as [[] w1|code w1|e w1]; [|destruct Hm|].
  - destruct Hm as [lines H]. exists lines, w1. split; [exact H|left; reflexivity].
  - destruct Hm as [lines H]. eexists (lines ++ [_]), _. split; [|right; reflexivity].
    cbn. rewrite H, app_assoc. reflexivity.
Qed.

Lemma dump_output_render self data w :
  dump_output isprintable self data w
  = render isprintable (select_target (output self)) data w.
Proof.
  unfold dump_output, select_target.
  destruct (output self) as [[|c path]|]; [reflexivity| |reflexivity].
  destruct (endswith (c :: path) (lit ".json")); [reflexivity|].
  destruct (endswith (c :: path) (lit ".csv")); reflexivity.
Qed.

Lemma dump_output_outcome self data w :
  exists lines w',
    console w' = console w ++ lines
    /\ (dump_output isprintable self data w = Returns tt w'
        \/ dump_output isprintable self data w = SystemExit 1 w').
Proof.
  rewrite dump_output_render. unfold render.
  destruct (select_target (output self)) as [|path|path].
  - exists [json_dumps data], (echo (json_dumps data) w). split; [reflexivity|left; reflexivity].
  - apply try_except_output_error, quiet_write_json.
  - apply try_except_output_error, quiet_write_csv.
Qed.

Lemma endswith_csv_not_json path :
  endswith path (lit ".csv") = true -> endswith path (lit ".json") = false.
Proof.
  unfold endswith. intros Hcsv%bool_decide_eq_true_1.
  apply bool_decide_eq_false_2. intros Hjson.
  assert (H1 : ¬ lit ".csv" `suffix_of` lit ".json")
    by (apply (bool_decide_eq_false_1 (lit ".csv" `suffix_of` lit ".json")); reflexivity).
  assert (H2 : ¬ lit ".json" `suffix_of` lit ".csv")
    by (apply (bool_decide_eq_false_1 (lit ".json" `suffix_of` lit ".csv")); reflexivity).
  destruct (suffix_weak_total _ _ _ Hcsv Hjson); contradiction.
Qed.

(** ** The response interpreter *)

Lemma raise_for_status_cases response w :
  (400 <= status_code response < 600)%Z
    /\ http_error_msg response <> []
    /\ raise_for_status response w = Raises (HTTPError (http_error_msg response)) w
  \/ ~ (400 <= status_code response < 600)%Z
    /\ raise_for_status response w = Returns tt w.
Proof.
  unfold raise_for_status, http_error_msg.
  destruct (int_repr_head (status_code response)) as (c & t & Heq & _).
  destruct (Z.leb_spec 400 (status_code response));
    destruct (Z.ltb_spec (status_code response) 500);
    destruct (Z.leb_spec 500 (status_code response));
    destruct (Z.ltb_spec (status_code response) 600);
    cbn [andb]; try lia;
    first [ right; split; [lia|reflexivity]
          | left; rewrite Heq; split; [lia|split; [discriminate|reflexivity]] ].
Qed.

Lemma process_response_http_error self response w :
  (400 <= status_code response < 600)%Z ->
  process_response isprintable self response w
  = SystemExit 1 (echo (lit "HTTP Error: " ++ http_error_msg response)
                       (echo (status_line response) w)).
Proof.
  intros Hcode. unfold process_response, try_except, bind, print.
  destruct (raise_for_status_cases response (echo (status_line response) w))
    as [(_ & _ & ->) | [Hno _]]; [reflexivity|contradiction].
Qed.

(** A [get] whose status is no HTTP error hands the parsed body to
    [dump_output]. *)
Lemma process_response_get self response payload w :
  method self = lit "get" ->
  ~ (400 <= status_code response < 600)%Z ->
  json response = inr payload ->
  process_response isprintable self response w
  = dump_output isprintable self payload (echo (status_line response) w).
Proof.
  intros Hm Hcode Hjson. unfold process_response, try_except, bind, print.
  destruct (raise_for_status_cases response (echo (status_line response) w))
    as [(Hc & _) | [_ ->]]; [contradiction|].
  rewrite Hm. change (bool_decide (lit "get" = lit "get")) with true. cbn match.
  unfold response_json. rewrite Hjson. unfold ret. cbv beta iota.
  destruct (dump_output_outcome self payload (echo (status_line response) w))
    as (lines & w' & _ & [-> | ->]); reflexivity.
Qed.

(** A [post] whose status is no HTTP error: [dump_output], then the message
    the status selects. *)
Lemma process_response_post self response payload w :
  method self = lit "post" ->
  ~ (400 <= status_code response < 600)%Z ->
  json response = inr payload ->
  process_response isprintable self response w
  = match dump_output isprintable self payload (echo (status_line response) w) with
    | Returns _ w2 =>
        if (status_code response =? 201)%Z
        then Returns tt (echo (lit "Post request successful.") w2)
        else SystemExit 1 (echo (lit "Error: " ++ text response) w2)
    | other => other
    end.
Proof.
  intros Hm Hcode Hjson. unfold process_response, try_except, bind, print.
  destruct (raise_for_status_cases response (echo (status_line response) w))
    as [(Hc & _) | [_ ->]]; [contradiction|].
  rewrite Hm. change (bool_decide (lit "post" = lit "get")) with false.
  change (bool_decide (lit "post" = lit "post")) with true. cbn match.
  unfold response_json. rewrite Hjson. unfold ret. cbv beta iota.
  destruct (dump_output_outcome self payload (echo (status_line response) w))
    as (lines & w' & _ & [-> | ->]); [|reflexivity].
  destruct (status_code response =? 201)%Z; reflexivity.
Qed.

(** ** The output serializer *)

Lemma write_rows_dicts path rows :
  forallb is_dict rows = true ->
  forall w content,
    files w !! path = Some content ->
    write_rows isprintable path rows w
    = Returns tt
        (store path
           (content ++ flat_map (fun row => csv_record isprintable (List.map snd (items_of row))) rows)
           w).
Proof.
  induction rows as [|row rows IH]; intros Hrows [c f o] content Hf; cbn in Hf.
  - cbn. rewrite app_nil_r. unfold store. cbn. rewrite insert_id by exact Hf. reflexivity.
  - cbn [forallb] in Hrows. apply andb_prop in Hrows as [Hrow Hrows].
    destruct row as [| | | | |items]; try discriminate Hrow.
    cbn [write_rows values]. unfold bind, ret, writerow, write. cbn [files console open_error].
    rewrite Hf. cbn [default].
    rewrite (IH Hrows _ (content ++ csv_record isprintable (List.map snd items))).
    + unfold store. cbn. rewrite insert_insert_eq, <- app_assoc. reflexivity.
    + cbn. apply lookup_insert_eq.
Qed.

Lemma write_csv_dicts path first rest w :
  open_error w path = None ->
  forallb is_dict (first :: rest) = true ->
  write_csv isprintable path (PList (first :: rest)) w
  = Returns tt
      (store path
         (csv_record isprintable (List.map (fun kv => PStr kv.1) (items_of first))
            ++ flat_map (fun row => csv_record isprintable (List.map snd (items_of row)))
                 (first :: rest))
         w).
Proof.
  intros Hopen Hrows. pose proof Hrows as Hall.
  cbn [forallb] in Hrows. apply andb_prop in Hrows as [Hfirst _].
  destruct first as [| | | | |items]; try discriminate Hfirst.
  destruct w as [c f o]. cbn in Hopen.
  unfold write_csv, bind, open_w. cbn [open_error]. rewrite Hopen.
  cbn [keys]. unfold ret, writerow, write, store at 1 2. cbn [files console open_error].
  rewrite lookup_insert_eq. cbn [default app].
  rewrite (write_rows_dicts path _ Hall _
             (csv_record isprintable (List.map (fun kv => PStr kv.1) items))).
  - unfold store. cbn. rewrite !insert_insert_eq. reflexivity.
  - cbn. apply lookup_insert_eq.
Qed.

Lemma dump_output_csv self path data w :
  output self = Some path ->
  endswith path (lit ".csv") = true ->
  dump_output isprintable self data w
  = try_except (write_csv isprintable path data) output_error w.
Proof.
  intros Hout Hcsv. rewrite dump_output_render, Hout. unfold select_target.
  rewrite (endswith_csv_not_json path Hcsv), Hcsv. reflexivity.
Qed.


(** A payload that is not a non-empty list leaves a [.csv] target alone. *)
Lemma dump_output_csv_invalid self path data w :
  output self = Some path ->
  endswith path (lit ".csv") = true ->
  (forall first rest, data <> PList (first :: rest)) ->
  dump_output isprintable self data w
  = Returns tt (echo (lit "Invalid data format for CSV output.") w).
Proof.
  intros Hout Hcsv Hshape. rewrite (dump_output_csv self path data w Hout Hcsv).
  destruct data as [| | | |[|first rest]|]; try reflexivity.
  exfalso. exact (Hshape first rest eq_refl).
Qed.


(** ** The claims *)

(** C1, as amended. For every response whose status code is in the range
    400 to 599, whatever the method, [process_response] prints the status
    line, then the HTTP error message, exits with status 1, and leaves every
    file as it was. *)
Theorem http_error_exits self response w :
  (400 <= status_code response < 600)%Z ->
  let o := process_response isprintable self response w in
  o = SystemExit 1 (echo (lit "HTTP Error: " ++ http_error_msg response)
                         (echo (status_line response) w))
  /\ console (final o)
     = console w ++ [status_line response; lit "HTTP Error: " ++ http_error_msg response]
  /\ exit_code o = 1%Z
  /\ files (final o) = files w.
Proof.
  intros Hcode o. unfold o. rewrite (process_response_http_error self response w Hcode).
  repeat split. cbn. rewrite <- app_assoc. reflexivity.
Qed.

(** C2. For every POST whose response has a 2xx status other than 201 and
    a body that parses, [dump_output] runs on the parsed payload after the
    status line; when it returns, the message [Error: ] followed by the
    response text is printed; the process exits with status 1 in every
    case. *)
Theorem post_not_created_exits self response payload w :
  method self = lit "post" ->
  (200 <= status_code response < 300)%Z ->
  status_code response <> 201%Z ->
  json response = inr payload ->
  let o := process_response isprintable self response w in
  exit_code o = 1%Z
  /\ match dump_output isprintable self payload (echo (status_line response) w) with
     | Returns _ w2 => o = SystemExit 1 (echo (lit "Error: " ++ text response) w2)
     | other => o = other
     end.
Proof.
  intros Hm Hcode H201 Hjson o. unfold o.
  rewrite (process_response_post self response payload w Hm ltac:(lia) Hjson).
  apply Z.eqb_neq in H201. rewrite H201.
  destruct (dump_output_outcome self payload (echo (status_line response) w))
    as (lines & w' & _ & [-> | ->]); split; reflexivity.
Qed.

(** C4. [dump_output] does what the target selected from [self.output]
    does, and the selection is total: a path ending in [.json] selects the
    JSON file, one ending in [.csv] the CSV file, no path or any other
    ending standard output, where the payload is printed and nothing is
    raised. *)
Theorem target_selection_total self data w :
  dump_output isprintable self data w
  = render isprintable (select_target (output self)) data w
  /\ (forall path, endswith path (lit ".json") = true ->
        select_target (Some path) = JsonFile path)
  /\ (forall path, endswith path (lit ".csv") = true ->
        select_target (Some path) = CsvFile path)
  /\ select_target None = Stdout
  /\ (forall path, endswith path (lit ".json") = false ->
        endswith path (lit ".csv") = false ->
        select_target (Some path) = Stdout)
  /\ (select_target (output self) = Stdout ->
        dump_output isprintable self data w = Returns tt (echo (json_dumps data) w)).
Proof.
  split; [apply dump_output_render|].
  split; [intros path H; unfold select_target; rewrite H; reflexivity|].
  split; [intros path H; unfold select_target;
          rewrite (endswith_csv_not_json path H), H; reflexivity|].
  split; [reflexivity|].
  split; [intros path H1 H2; unfold select_target; rewrite H1, H2; reflexivity|].
  intros H. rewrite dump_output_render, H. reflexivity.
Qed.


(** C6. For a POST whose response has status 201 and a body that parses,
    when [dump_output] returns on the parsed payload, the message
    [Post request successful.] is printed after it and the process ends
    with status 0. *)
Theorem post_created_succeeds self response payload w w2 :
  method self = lit "post" ->
  status_code response = 201%Z ->
  json response = inr payload ->
  dump_output isprintable self payload (echo (status_line response) w) = Returns tt w2 ->
  let o := process_response isprintable self response w in
  o = Returns tt (echo (lit "Post request successful.") w2)
  /\ exit_code o = 0%Z.
Proof.
  intros Hm Hcode Hjson Hdump o. unfold o.
  rewrite (process_response_post self response payload w Hm ltac:(lia) Hjson).
  rewrite Hdump, Hcode. split; reflexivity.
Qed.





(** ** Further properties of the two methods *)

(** X1. [dump_output] returns or exits with status 1: no exception leaves
    it, and it only appends to the console. *)
Theorem dump_output_returns_or_exits self data w :
  exists lines w',
    console w' = console w ++ lines
    /\ (dump_output isprintable self data w = Returns tt w'
        \/ dump_output isprintable self data w = SystemExit 1 w').
Proof. exact (dump_output_outcome self data w). Qed.

(** X2. With a [.csv] target, a payload that is not a non-empty list only
    gets the diagnostic printed: no file is opened and [dump_output]
    returns. *)
Theorem csv_needs_a_nonempty_list self path data w :
  output self = Some path ->
  endswith path (lit ".csv") = true ->
  (forall first rest, data <> PList (first :: rest)) ->
  let o := dump_output isprintable self data w in
  o = Returns tt (echo (lit "Invalid data format for CSV output.") w)
  /\ files (final o) = files w
  /\ exit_code o = 0%Z.
Proof.
  intros Hout Hcsv Hshape o. unfold o.
  rewrite (dump_output_csv_invalid self path data w Hout Hcsv Hshape).
  repeat split.
Qed.

(** X3. When the status is no HTTP error and [response.json()] raises, a
    GET or a POST prints the status line and [Error: ] with the text of the
    exception, exits with status 1 and leaves every file as it was. *)
Theorem parse_error_exits self response msg w :
  method self = lit "get" \/ method self = lit "post" ->
  ~ (400 <= status_code response < 600)%Z ->
  json response = inl msg ->
  let o := process_response isprintable self response w in
  o = SystemExit 1 (echo (lit "Error: " ++ msg) (echo (status_line response) w))
  /\ files (final o) = files w.
Proof.
  intros Hm Hcode Hjson o. unfold o, process_response, try_except, bind, print.
  destruct (raise_for_status_cases response (echo (status_line response) w))
    as [(Hc & _) | [_ ->]]; [contradiction|].
  unfold response_json. rewrite Hjson.
  destruct Hm as [-> | ->]; split; reflexivity.
Qed.

(** X4. When the file of a [.json] target, or of a [.csv] target given a
    non-empty list, cannot be opened, [dump_output] prints
    [Error while writing output: ] with the text of the exception and exits
    with status 1; no file changes. *)
Theorem open_failure_exits self path data msg w :
  output self = Some path ->
  endswith path (lit ".json") = true
  \/ (endswith path (lit ".csv") = true /\ exists first rest, data = PList (first :: rest)) ->
  open_error w path = Some msg ->
  let o := dump_output isprintable self data w in
  o = SystemExit 1 (echo (lit "Error while writing output: " ++ msg) w)
  /\ files (final o) = files w.
Proof.
  intros Hout Hkind Hopen o. unfold o. rewrite dump_output_render, Hout.
  unfold select_target.
  destruct Hkind as [Hjson | (Hcsv & first & rest & ->)].
  - rewrite Hjson. unfold render, try_except, write_json, bind, open_w.
    rewrite Hopen. split; reflexivity.
  - rewrite (endswith_csv_not_json path Hcsv), Hcsv.
    unfold render, try_except, write_csv, bind, open_w.
    rewrite Hopen. split; reflexivity.
Qed.

End Properties.

(** ** The claims on the example runs *)

(** C1, as stated, fails: a GET answered with status 300 and a JSON body is
    no HTTP error for [raise_for_status]; the body is written to the file
    and the process ends with status 0. *)
Lemma status_300_is_processed :
  let response := respond 300 "Multiple Choices" (lit "[]") (inr (PList [])) in
  let o := process_response ascii_table get_json response empty_world in
  ~ (200 <= status_code response < 300)%Z
  /\ exit_code o = 0%Z
  /\ console (final o) = [lit "HTTP Status Code: 300"]
  /\ files empty_world !! lit "out.json" = None
  /\ files (final o) !! lit "out.json" = Some (lit "[]").
Proof.
  split; [cbn; lia|]. vm_compute. repeat split.
Qed.

(** C1, as amended, on a 404. *)
Lemma http_error_exits_404 :
  let response := respond 404 "Not Found" (lit "{}") (inr (PDict [])) in
  let o := process_response ascii_table get_json response empty_world in
  console (final o)
  = [lit "HTTP Status Code: 404";
     lit "HTTP Error: 404 Client Error: Not Found for url: https://jsonplaceholder.typicode.com/posts"]
  /\ exit_code o = 1%Z
  /\ files (final o) = files empty_world.
Proof.
  intros response o.
  destruct (http_error_exits ascii_table get_json response empty_world
              ltac:(cbn; lia)) as (_ & Hconsole & Hexit & Hfiles).
  fold o in Hconsole, Hexit, Hfiles.
  split; [rewrite Hconsole; reflexivity|]. split; [exact Hexit|exact Hfiles].
Defined.

(** C2 on a POST answered with status 200. *)
Lemma post_200_exits :
  let response := respond 200 "OK" (json_dumps created) (inr created) in
  let o := process_response ascii_table post_stdout response empty_world in
  exit_code o = 1%Z
  /\ console (final o)
     = [lit "HTTP Status Code: 200"; json_dumps created;
        lit "Error: " ++ json_dumps created].
Proof.
  intros response o.
  destruct (post_not_created_exits ascii_table post_stdout response created empty_world
              eq_refl ltac:(cbn; lia) ltac:(cbn; lia) eq_refl) as [Hexit Hdump].
  fold o in Hexit, Hdump.
  split; [exact Hexit|]. cbn in Hdump. rewrite Hdump. reflexivity.
Defined.

(** C3 fails on the code: a [.csv] target and the payload [[1]]. The guard
    lets the list through, the file is opened and so emptied, [keys] raises,
    and the handler ends the process with status 1; the message
    [Invalid data format for CSV output.] is never printed. *)
Lemma csv_list_of_numbers_is_fatal :
  let o := dump_output ascii_table get_csv numbers world_with_csv in
  exit_code o = 1%Z
  /\ console (final o)
     = [lit "Error while writing output: 'int' object has no attribute 'keys'"]
  /\ files world_with_csv !! lit "out.csv" = Some (lit "kept")
  /\ files (final o) !! lit "out.csv" = Some [].
Proof. vm_compute. repeat split. Qed.


(** C6 on a POST answered with status 201. *)
Lemma post_201_succeeds :
  let response := respond 201 "Created" (json_dumps created) (inr created) in
  let o := process_response ascii_table post_stdout response empty_world in
  exit_code o = 0%Z
  /\ console (final o)
     = [lit "HTTP Status Code: 201"; json_dumps created; lit "Post request successful."].
Proof.
  intros response o.
  destruct (post_created_succeeds ascii_table post_stdout response created empty_world
              (echo (json_dumps created) (echo (status_line response) empty_world))
              eq_refl eq_refl eq_refl eq_refl) as [Ho Hexit].
  fold o in Ho, Hexit. split; [exact Hexit|]. rewrite Ho. reflexivity.
Defined.





(** The file of the run above: the header of the first element, then the
    values of each element, two fields under a header of one. *)
Lemma csv_mixed_rows_file :
  files (final (dump_output ascii_table get_csv (PList mixed_rows) empty_world))
    !! lit "out.csv"
  = Some (lit "a" ++ [CR; LF] ++ lit "1" ++ [CR; LF] ++ lit "2,3" ++ [CR; LF]).
Proof. vm_compute. reflexivity. Qed.

(** X2 on the single mapping of the specification. *)
Lemma csv_single_mapping_example :
  let o := dump_output ascii_table get_csv one_post world_with_csv in
  o = Returns tt (echo (lit "Invalid data format for CSV output.") world_with_csv)
  /\ files (final o) = files world_with_csv
  /\ exit_code o = 0%Z.
Proof.
  exact (csv_needs_a_nonempty_list ascii_table get_csv (lit "out.csv") one_post
           world_with_csv eq_refl eq_refl ltac:(discriminate)).
Defined.

(** X3 on an empty body. *)
Lemma parse_error_example :
  let response :=
    respond 200 "OK" [] (inl (lit "Expecting value: line 1 column 1 (char 0)")) in
  let o := process_response ascii_table get_json response empty_world in
  o = SystemExit 1
        (echo (lit "Error: Expecting value: line 1 column 1 (char 0)")
           (echo (lit "HTTP Status Code: 200") empty_world))
  /\ files (final o) = files empty_world.
Proof.
  exact (parse_error_exits ascii_table get_json
           (respond 200 "OK" [] (inl (lit "Expecting value: line 1 column 1 (char 0)")))
           _ empty_world (or_introl eq_refl) ltac:(cbn; lia) eq_refl).
Defined.

(** X4 on a directory that does not exist. *)
Lemma open_failure_example :
  let w := World [] ∅ (fun _ => Some (lit "[Errno 2] No such file or directory")) in
  let o := dump_output ascii_table get_json two_rows w in
  o = SystemExit 1
        (echo (lit "Error while writing output: [Errno 2] No such file or directory") w)
  /\ files (final o) = files w.
Proof.
  exact (open_failure_exits ascii_table get_json (lit "out.json") two_rows _
           (World [] ∅ (fun _ => Some (lit "[Errno 2] No such file or directory")))
           eq_refl (or_introl eq_refl) eq_refl).
Defined.


(** * The program as a whole *)

(** ** The characters of the JSON text *)

Ltac plain_chars :=
  repeat first
    [ apply List.Forall_nil
    | apply List.Forall_cons; [first [left; reflexivity | right; cbv; split; discriminate]|] ].

Lemma hexdigit_plain d : d < 16 -> plain (hexdigit d).
Proof. intros Hd. right. unfold hexdigit. destruct (N.ltb_spec d 10); lia. Qed.

Lemma hex2_plain n : Forall plain (hex2 n).
Proof.
  unfold hex2. repeat apply List.Forall_cons; try apply List.Forall_nil;
    apply hexdigit_plain, N.mod_lt; discriminate.
Qed.

Lemma hex4_plain n : Forall plain (hex4 n).
Proof. apply Forall_app; split; apply hex2_plain. Qed.

Lemma escape_replace_plain c : Forall plain (escape_replace c).
Proof.
  unfold escape_replace.
  repeat match goal with
         | |- context [if ?b then _ else _] => destruct b
         end; try solve [plain_chars].
  - apply List.Forall_cons; [right; cbv; split; discriminate|].
    apply (Forall_app plain (lit "u")); split; [plain_chars|apply hex4_plain].
  - apply List.Forall_cons; [right; cbv; split; discriminate|].
    apply (Forall_app plain (lit "u")); split; [plain_chars|].
    apply Forall_app; split; [apply hex4_plain|].
    apply List.Forall_cons; [right; cbv; split; discriminate|].
    apply (Forall_app plain (lit "u")); split; [plain_chars|apply hex4_plain].
Qed.

Lemma escape_char_plain c : Forall plain (escape_char c).
Proof.
  unfold escape_char. destruct (escape_ascii_match c) eqn:E; [apply escape_replace_plain|].
  unfold escape_ascii_match in E. apply orb_false_elim in E as [E H126].
  apply orb_false_elim in E as [_ H32].
  apply N.ltb_ge in H126, H32.
  apply List.Forall_cons; [right; lia|apply List.Forall_nil].
Qed.

Lemma encode_basestring_ascii_plain s : Forall plain (encode_basestring_ascii s).
Proof.
  unfold encode_basestring_ascii, escape_body.
  apply List.Forall_cons; [right; cbv; split; discriminate|].
  apply Forall_app; split; [|plain_chars].
  induction s as [|c s IH]; [apply List.Forall_nil|].
  cbn [flat_map]. apply Forall_app; split; [apply escape_char_plain|exact IH].
Qed.

Lemma uint_chars_plain d : Forall plain (uint_chars d).
Proof.
  induction d; cbn [uint_chars]; try apply List.Forall_nil;
    (apply List.Forall_cons; [right; lia|assumption]).
Qed.

Lemma int_repr_plain z : Forall plain (int_repr z).
Proof.
  unfold int_repr. destruct (Z.to_int z); [apply uint_chars_plain|].
  apply List.Forall_cons; [right; lia|apply uint_chars_plain].
Qed.

Lemma newline_indent_plain level : Forall plain (newline_indent level).
Proof.
  unfold newline_indent. apply List.Forall_cons; [left; reflexivity|].
  induction (2 * level)%nat as [|n IH]; [apply List.Forall_nil|].
  apply List.Forall_cons; [right; cbv; split; discriminate|exact IH].
Qed.

Lemma join_plain sep parts :
  Forall plain sep -> Forall (Forall plain) parts -> Forall plain (join sep parts).
Proof.
  intros Hsep Hparts. induction Hparts as [|p ps Hp Hps IH]; [apply List.Forall_nil|].
  destruct ps as [|q ps]; [exact Hp|].
  change (join sep (p :: q :: ps)) with (p ++ sep ++ join sep (q :: ps)).
  apply Forall_app; split; [exact Hp|]. apply Forall_app; split; [exact Hsep|exact IH].
Qed.

Lemma iterencode_plain o : forall level, Forall plain (iterencode level o).
Proof.
  induction o as [|b|z|s|l IH|items IH] using pyobj_ind; intros level.
  - plain_chars.
  - destruct b; plain_chars.
  - apply int_repr_plain.
  - apply encode_basestring_ascii_plain.
  - destruct l as [|x l]; [plain_chars|].
    cbn [iterencode]. apply (Forall_app plain (lit "[")); split; [plain_chars|].
    apply Forall_app; split; [apply newline_indent_plain|].
    apply Forall_app; split.
    + apply join_plain.
      * apply List.Forall_cons; [right; cbv; split; discriminate|apply newline_indent_plain].
      * apply Forall_map. eapply Forall_impl; [exact IH|]. intros y Hy. apply Hy.
    + apply Forall_app; split; [apply newline_indent_plain|plain_chars].
  - destruct items as [|kv items]; [plain_chars|].
    cbn [iterencode]. apply (Forall_app plain (lit "{")); split; [plain_chars|].
    apply Forall_app; split; [apply newline_indent_plain|].
    apply Forall_app; split.
    + apply join_plain.
      * apply List.Forall_cons; [right; cbv; split; discriminate|apply newline_indent_plain].
      * apply Forall_map. eapply Forall_impl; [exact IH|]. intros y Hy. cbn beta.
        apply Forall_app; split; [apply encode_basestring_ascii_plain|].
        apply (Forall_app plain (lit ": ")); split; [plain_chars|apply Hy].
    + apply Forall_app; split; [apply newline_indent_plain|plain_chars].
Qed.

Lemma json_dumps_plain o : Forall plain (json_dumps o).
Proof. apply iterencode_plain. Qed.

Section Program.

Variable isprintable : N -> bool.
Variable transport : Request -> str + Response.

(** ** Files other than the output file *)

Lemma confined_ret {A} path (a : A) : confined path (ret a).
Proof. intros w. split; [reflexivity|intros; reflexivity]. Qed.

Lemma confined_raise {A} path e : confined path (@raise A e).
Proof. intros w. split; [reflexivity|intros; reflexivity]. Qed.

Lemma confined_exit {A} path code : confined path (@exit A code).
Proof. intros w. split; [reflexivity|intros; reflexivity]. Qed.

Lemma confined_print path s : confined path (print s).
Proof. intros w. split; [reflexivity|intros; reflexivity]. Qed.

Lemma confined_open_w path : confined path (open_w path).
Proof.
  intros w. unfold open_w. destruct (open_error w path); cbn;
    (split; [reflexivity|intros p Hp]); [reflexivity|].
  apply lookup_insert_ne. congruence.
Qed.

Lemma confined_write path s : confined path (write path s).
Proof.
  intros w. cbn. split; [reflexivity|intros p Hp].
  apply lookup_insert_ne. congruence.
Qed.

Lemma confined_bind {A B} path (m : M A) (k : A -> M B) :
  confined path m -> (forall a, confined path (k a)) -> confined path (bind m k).
Proof.
  intros Hm Hk w. unfold bind. specialize (Hm w).
  destruct (m w) as [a w1|code w1|e w1]; [|exact Hm|exact Hm].
  cbn [final] in Hm. destruct Hm as [Ho Hf]. destruct (Hk a w1) as [Ho' Hf'].
  split; [congruence|]. intros p Hp. rewrite (Hf' p Hp). exact (Hf p Hp).
Qed.

Lemma confined_try_except {A} path (m : M A) handler :
  confined path m -> (forall e, confined path (handler e)) ->
  confined path (try_except m handler).
Proof.
  intros Hm Hh w. unfold try_except. specialize (Hm w).
  destruct (m w) as [a w1|code w1|e w1]; [exact Hm|exact Hm|].
  cbn [final] in Hm. destruct Hm as [Ho Hf]. destruct (Hh e w1) as [Ho' Hf'].
  split; [congruence|]. intros p Hp. rewrite (Hf' p Hp). exact (Hf p Hp).
Qed.

Lemma confined_write_rows path rows : confined path (write_rows isprintable path rows).
Proof.
  induction rows as [|row rows IH]; [apply confined_ret|].
  cbn [write_rows]. apply confined_bind; [destruct row; first [apply confined_ret|apply confined_raise]|].
  intros fields. apply confined_bind; [apply confined_write|intros _; exact IH].
Qed.

Lemma confined_write_csv path data : confined path (write_csv isprintable path data).
Proof.
  destruct data as [| | | |[|first rows]|]; try apply confined_print.
  cbn [write_csv]. apply confined_bind; [apply confined_open_w|intros _].
  apply confined_bind; [destruct first; first [apply confined_ret|apply confined_raise]|].
  intros header. apply confined_bind; [apply confined_write|intros _; apply confined_write_rows].
Qed.

Lemma confined_output_error path e : confined path (output_error e).
Proof. apply confined_bind; [apply confined_print|intros _; apply confined_exit]. Qed.

Lemma confined_render path target data :
  (forall p, target = JsonFile p \/ target = CsvFile p -> p = path) ->
  confined path (render isprintable target data).
Proof.
  intros Ht. destruct target as [|p|p]; cbn [render].
  - apply confined_print.
  - rewrite (Ht p (or_introl eq_refl)).
    apply confined_try_except; [|apply confined_output_error].
    apply confined_bind; [apply confined_open_w|intros _; apply confined_write].
  - rewrite (Ht p (or_intror eq_refl)).
    apply confined_try_except; [apply confined_write_csv|apply confined_output_error].
Qed.

Lemma select_target_path out p :
  select_target out = JsonFile p \/ select_target out = CsvFile p -> out = Some p.
Proof.
  unfold select_target. destruct out as [path|]; [|intros [H|H]; discriminate H].
  destruct (endswith path (lit ".json")); [intros [H|H]; inversion H; reflexivity|].
  destruct (endswith path (lit ".csv")); intros [H|H]; inversion H; reflexivity.
Qed.

(** [dump_output] changes no file but the one at [self.output]. *)
Lemma dump_output_frame self data w p :
  output self <> Some p ->
  files (final (dump_output isprintable self data w)) !! p = files w !! p.
Proof.
  intros Hp. rewrite dump_output_render.
  destruct (select_target (output self)) as [|path|path] eqn:E.
  - reflexivity.
  - pose proof (select_target_path _ path (or_introl E)) as Hout.
    apply (confined_render path (JsonFile path) data); [|congruence].
    intros p' [H|H]; inversion H; reflexivity.
  - pose proof (select_target_path _ path (or_intror E)) as Hout.
    apply (confined_render path (CsvFile path) data); [|congruence].
    intros p' [H|H]; inversion H; reflexivity.
Qed.


(** ** [process_response], case by case *)

Lemma http_error_spec response :
  http_error response = true <-> (400 <= status_code response < 600)%Z.
Proof. unfold http_error. rewrite andb_true_iff, Z.leb_le, Z.ltb_lt. reflexivity. Qed.

Lemma process_response_cases self response w :
  process_response isprintable self response w
  = let w1 := echo (status_line response) w in
    if http_error response then
      SystemExit 1 (echo (lit "HTTP Error: " ++ http_error_msg response) w1)
    else if bool_decide (method self = lit "get") then
      match json response with
      | inl msg => SystemExit 1 (echo (lit "Error: " ++ msg) w1)
      | inr payload => dump_output isprintable self payload w1
      end
    else if bool_decide (method self = lit "post") then
      match json response with
      | inl msg => SystemExit 1 (echo (lit "Error: " ++ msg) w1)
      | inr payload =>
          match dump_output isprintable self payload w1 with
          | Returns _ w2 =>
              if (status_code response =? 201)%Z
              then Returns tt (echo (lit "Post request successful.") w2)
              else SystemExit 1 (echo (lit "Error: " ++ text response) w2)
          | other => other
          end
      end
    else Returns tt w1.
Proof.
  cbv zeta. destruct (http_error response) eqn:Eh.
  { apply process_response_http_error, http_error_spec, Eh. }
  assert (Hcode : ~ (400 <= status_code response < 600)%Z).
  { intros H. apply http_error_spec in H. congruence. }
  unfold process_response, try_except, bind, print.
  destruct (raise_for_status_cases response (echo (status_line response) w))
    as [(Hc & _) | [_ ->]]; [contradiction|].
  unfold response_json, ret.
  destruct (bool_decide (method self = lit "get")).
  { destruct (json response) as [msg|payload]; [reflexivity|].
    destruct (dump_output_outcome isprintable self payload (echo (status_line response) w))
      as (lines & w' & _ & [-> | ->]); reflexivity. }
  destruct (bool_decide (method self = lit "post")); [|reflexivity].
  destruct (json response) as [msg|payload]; [reflexivity|].
  destruct (dump_output_outcome isprintable self payload (echo (status_line response) w))
    as (lines & w' & _ & [-> | ->]); [|reflexivity].
  destruct (status_code response =? 201)%Z; reflexivity.
Qed.


(** ** How [dump_output] ends *)

Lemma render_json_opened path data w :
  open_error w path = None ->
  render isprintable (JsonFile path) data w = Returns tt (store path (json_dumps data) w).
Proof.
  intros Hopen. destruct w as [c f o]. cbn in Hopen.
  unfold render, try_except, write_json, bind, open_w. cbn [open_error]. rewrite Hopen.
  unfold write, store. cbn. rewrite lookup_insert_eq, insert_insert_eq. reflexivity.
Qed.

Lemma render_not_opened target path data msg w :
  target = JsonFile path \/ (target = CsvFile path /\ exists first rest, data = PList (first :: rest)) ->
  open_error w path = Some msg ->
  render isprintable target data w
  = SystemExit 1 (echo (lit "Error while writing output: " ++ msg) w).
Proof.
  intros [-> | (-> & first & rest & ->)] Hopen;
    unfold render, try_except, write_json, write_csv, bind, open_w; rewrite Hopen; reflexivity.
Qed.

Lemma split_at_non_dict rows :
  forallb is_dict rows = false ->
  exists good bad rest,
    rows = good ++ bad :: rest /\ forallb is_dict good = true /\ is_dict bad = false.
Proof.
  induction rows as [|row rows IH]; [discriminate|]. cbn [forallb].
  destruct (is_dict row) eqn:E.
  - cbn [andb]. intros H. destruct (IH H) as (good & bad & rest & -> & Hg & Hb).
    exists (row :: good), bad, rest. cbn [forallb]. rewrite E, Hg. repeat split; assumption.
  - intros _. exists [], row, rows. repeat split; assumption.
Qed.

Lemma write_rows_stops path good bad rest :
  forallb is_dict good = true ->
  is_dict bad = false ->
  forall w content,
    files w !! path = Some content ->
    write_rows isprintable path (good ++ bad :: rest) w
    = Raises (Exception (no_attribute bad (lit "values")))
        (store path (content ++ rows_text isprintable good) w).
Proof.
  intros Hgood Hbad. induction good as [|row good IH]; intros [c f o] content Hf; cbn in Hf.
  - cbn [app write_rows]. unfold bind, rows_text. cbn [flat_map]. rewrite app_nil_r.
    unfold store. cbn [console files open_error]. rewrite insert_id by exact Hf.
    destruct bad; try discriminate Hbad; reflexivity.
  - cbn [forallb] in Hgood. apply andb_prop in Hgood as [Hrow Hgood].
    destruct row as [| | | | |items]; try discriminate Hrow.
    cbn [app write_rows values]. unfold bind, ret, writerow, write.
    cbn [files console open_error]. rewrite Hf. cbn [default].
    rewrite (IH Hgood _ (content ++ csv_record isprintable (List.map snd items))).
    + unfold store, rows_text. cbn. rewrite insert_insert_eq, <- app_assoc. reflexivity.
    + cbn. apply lookup_insert_eq.
Qed.

Lemma render_csv_first_not_dict path first rest w :
  open_error w path = None ->
  is_dict first = false ->
  render isprintable (CsvFile path) (PList (first :: rest)) w
  = SystemExit 1
      (echo (lit "Error while writing output: " ++ no_attribute first (lit "keys"))
         (store path [] w)).
Proof.
  intros Hopen Hfirst. unfold render, try_except, write_csv, bind, open_w. rewrite Hopen.
  destruct first; try discriminate Hfirst; reflexivity.
Qed.

Lemma render_csv_stops path first good bad rest w :
  open_error w path = None ->
  forallb is_dict (first :: good) = true ->
  is_dict bad = false ->
  render isprintable (CsvFile path) (PList (first :: good ++ bad :: rest)) w
  = SystemExit 1
      (echo (lit "Error while writing output: " ++ no_attribute bad (lit "values"))
         (store path (header_text isprintable first ++ rows_text isprintable (first :: good))
            w)).
Proof.
  intros Hopen Hgood Hbad. pose proof Hgood as Hall.
  cbn [forallb] in Hgood. apply andb_prop in Hgood as [Hfirst _].
  destruct first as [| | | | |items]; try discriminate Hfirst.
  destruct w as [c f o]. cbn in Hopen.
  unfold render, try_except, write_csv, bind, open_w. cbn [open_error]. rewrite Hopen.
  cbn [keys]. unfold ret, writerow, write, store at 1 2. cbn [files console open_error].
  rewrite lookup_insert_eq. cbn [default app].
  rewrite (write_rows_stops path (PDict items :: good) bad rest Hall Hbad _
             (csv_record isprintable (List.map (fun kv => PStr kv.1) items))).
  - unfold store, output_error, bind, print, exit, echo, header_text. cbn.
    rewrite !insert_insert_eq. reflexivity.
  - cbn. apply lookup_insert_eq.
Qed.

Lemma render_csv_dicts path first rest w :
  open_error w path = None ->
  forallb is_dict (first :: rest) = true ->
  render isprintable (CsvFile path) (PList (first :: rest)) w
  = Returns tt
      (store path (header_text isprintable first ++ rows_text isprintable (first :: rest)) w).
Proof.
  intros Hopen Hrows. unfold render, try_except.
  rewrite (write_csv_dicts isprintable path first rest w Hopen Hrows). reflexivity.
Qed.

Lemma render_csv_invalid path data w :
  (forall first rest, data <> PList (first :: rest)) ->
  render isprintable (CsvFile path) data w
  = Returns tt (echo (lit "Invalid data format for CSV output.") w).
Proof.
  intros Hshape. destruct data as [| | | |[|first rest]|]; try reflexivity.
  exfalso. exact (Hshape first rest eq_refl).
Qed.


Lemma render_accepts target data w :
  accepts target data w = true ->
  render isprintable target data w = Returns tt (rendered isprintable target data w).
Proof.
  destruct target as [|path|path]; cbn [accepts rendered].
  - reflexivity.
  - intros H%bool_decide_eq_true_1. apply render_json_opened, H.
  - destruct data as [| | | |[|first rest]|];
      try (intros _; apply render_csv_invalid; intros ? ? E; discriminate E).
    intros [Hopen%bool_decide_eq_true_1 Hrows]%andb_prop.
    apply render_csv_dicts; assumption.
Qed.

Lemma render_rejects target data w :
  accepts target data w = false ->
  exists msg w0,
    render isprintable target data w
    = SystemExit 1 (echo (lit "Error while writing output: " ++ msg) w0)
    /\ console w0 = console w /\ open_error w0 = open_error w.
Proof.
  destruct target as [|path|path]; cbn [accepts]; intros H.
  - discriminate H.
  - apply bool_decide_eq_false_1 in H.
    destruct (open_error w path) as [msg|] eqn:E; [|contradiction].
    exists msg, w. split; [|split; reflexivity].
    apply (render_not_opened _ path); [left; reflexivity|exact E].
  - destruct data as [| | | |[|first rest]|]; try discriminate H.
    destruct (open_error w path) as [msg|] eqn:E.
    { exists msg, w. split; [|split; reflexivity].
      apply (render_not_opened _ path); [right; eauto|exact E]. }
    rewrite bool_decide_eq_true_2 in H by reflexivity. cbn [andb] in H.
    destruct (is_dict first) eqn:Efirst.
    + cbn [forallb] in H. rewrite Efirst in H. cbn [andb] in H.
      destruct (split_at_non_dict rest H) as (good & bad & rest' & -> & Hg & Hb).
      eexists _, _.
      split; [apply render_csv_stops; [exact E| |exact Hb]|split; reflexivity].
      cbn [forallb]. rewrite Efirst, Hg. reflexivity.
    + eexists _, _.
      split; [apply render_csv_first_not_dict; assumption|split; reflexivity].
Qed.

Lemma accepts_open_error target data w w' :
  open_error w' = open_error w -> accepts target data w' = accepts target data w.
Proof. intros H. unfold accepts. rewrite H. reflexivity. Qed.

Lemma rendered_open_error target data w :
  open_error (rendered isprintable target data w) = open_error w.
Proof.
  destruct target as [|path|path]; [reflexivity|reflexivity|].
  destruct data as [| | | |[|first rest]|]; reflexivity.
Qed.

Lemma rendered_twice target data w :
  files (rendered isprintable target data (rendered isprintable target data w)) = files (rendered isprintable target data w).
Proof.
  destruct target as [|path|path]; [reflexivity|apply insert_insert_eq|].
  destruct data as [| | | |[|first rest]|]; try reflexivity. apply insert_insert_eq.
Qed.

(** ** Frames *)

Lemma render_frame target data w :
  open_error (final (render isprintable target data w)) = open_error w
  /\ forall p, target <> JsonFile p -> target <> CsvFile p ->
       files (final (render isprintable target data w)) !! p = files w !! p.
Proof.
  destruct target as [|path|path].
  - split; [reflexivity|intros; reflexivity].
  - destruct (confined_render path (JsonFile path) data) with (w := w) as [Ho Hf].
    { intros p' [H|H]; inversion H; reflexivity. }
    split; [exact Ho|]. intros p Hp _. apply Hf. congruence.
  - destruct (confined_render path (CsvFile path) data) with (w := w) as [Ho Hf].
    { intros p' [H|H]; inversion H; reflexivity. }
    split; [exact Ho|]. intros p _ Hp. apply Hf. congruence.
Qed.

Lemma process_response_frame self response w :
  open_error (final (process_response isprintable self response w)) = open_error w
  /\ forall p, select_target (output self) <> JsonFile p ->
       select_target (output self) <> CsvFile p ->
       files (final (process_response isprintable self response w)) !! p = files w !! p.
Proof.
  rewrite process_response_cases. cbv zeta.
  set (w1 := echo (status_line response) w).
  assert (Hdump : forall payload,
    open_error (final (dump_output isprintable self payload w1)) = open_error w
    /\ forall p, select_target (output self) <> JsonFile p ->
         select_target (output self) <> CsvFile p ->
         files (final (dump_output isprintable self payload w1)) !! p = files w !! p).
  { intros payload. rewrite dump_output_render.
    exact (render_frame (select_target (output self)) payload w1). }
  destruct (http_error response); [split; [reflexivity|intros; reflexivity]|].
  destruct (bool_decide (method self = lit "get")).
  { destruct (json response) as [msg|payload]; [split; [reflexivity|intros; reflexivity]|].
    apply Hdump. }
  destruct (bool_decide (method self = lit "post")); [|split; [reflexivity|intros; reflexivity]].
  destruct (json response) as [msg|payload]; [split; [reflexivity|intros; reflexivity]|].
  specialize (Hdump payload).
  destruct (dump_output isprintable self payload w1) as [[] w2|code w2|e w2];
    [|exact Hdump|exact Hdump].
  destruct (status_code response =? 201)%Z; exact Hdump.
Qed.

(** ** [main] *)

Lemma output_client_of args :
  select_target (output (client_of args)) = select_target (args_output args).
Proof. unfold client_of. destruct (args_output args) as [[|c path]|]; reflexivity. Qed.

Lemma main_get args w :
  args_method args = lit "get" ->
  main isprintable transport args w
  = match transport {| req_verb := GET; req_url := BASE_URL ++ args_endpoint args;
                       req_data := None; req_headers := [] |} with
    | inl msg => Raises (Exception msg) w
    | inr response => process_response isprintable (client_of args) response w
    end.
Proof.
  intros Hm. unfold main, send_request, bind, requests_call.
  replace (method (client_of args)) with (lit "get")
    by (unfold client_of; destruct (args_output args) as [[|? ?]|]; symmetry; exact Hm).
  replace (endpoint (client_of args)) with (args_endpoint args)
    by (unfold client_of; destruct (args_output args) as [[|? ?]|]; reflexivity).
  change (bool_decide (lit "get" = lit "get")) with true. cbv iota.
  destruct (transport _); reflexivity.
Qed.

Lemma main_post args w :
  args_method args = lit "post" ->
  main isprintable transport args w
  = match transport {| req_verb := POST; req_url := BASE_URL ++ args_endpoint args;
                       req_data := args_data args;
                       req_headers := [(lit "Content-Type", lit "application/json")] |} with
    | inl msg => Raises (Exception msg) w
    | inr response => process_response isprintable (client_of args) response w
    end.
Proof.
  intros Hm. unfold main, send_request, bind, requests_call.
  replace (method (client_of args)) with (lit "post")
    by (unfold client_of; destruct (args_output args) as [[|? ?]|]; symmetry; exact Hm).
  replace (endpoint (client_of args)) with (args_endpoint args)
    by (unfold client_of; destruct (args_output args) as [[|? ?]|]; reflexivity).
  replace (data (client_of args)) with (args_data args)
    by (unfold client_of; destruct (args_output args) as [[|? ?]|]; reflexivity).
  change (bool_decide (lit "post" = lit "get")) with false.
  change (bool_decide (lit "post" = lit "post")) with true. cbv iota.
  destruct (transport _); reflexivity.
Qed.

Lemma send_request_frame self w :
  (exists r, send_request transport self w = Returns r w)
  \/ (exists request msg,
        transport request = inl msg
        /\ send_request transport self w = Raises (Exception msg) w).
Proof.
  unfold send_request, bind, requests_call.
  destruct (bool_decide (method self = lit "get")).
  { destruct (transport _) eqn:E; [right|left; eexists; reflexivity].
    eexists _, _. split; [exact E|reflexivity]. }
  destruct (bool_decide (method self = lit "post")).
  { destruct (transport _) eqn:E; [right|left; eexists; reflexivity].
    eexists _, _. split; [exact E|reflexivity]. }
  left; eexists; reflexivity.
Qed.

Lemma main_frame args w :
  open_error (final (main isprintable transport args w)) = open_error w
  /\ forall p, select_target (args_output args) <> JsonFile p ->
       select_target (args_output args) <> CsvFile p ->
       files (final (main isprintable transport args w)) !! p = files w !! p.
Proof.
  unfold main, bind.
  destruct (send_request_frame (client_of args) w) as [[r ->] | (request & msg & _ & ->)];
    [|split; [reflexivity|intros; reflexivity]].
  destruct r as [response|]; cbn [process_response_result];
    [|split; [reflexivity|intros; reflexivity]].
  rewrite <- output_client_of. apply process_response_frame.
Qed.


Lemma select_target_csv path :
  endswith path (lit ".csv") = true -> select_target (Some path) = CsvFile path.
Proof.
  intros H. unfold select_target. rewrite (endswith_csv_not_json path H), H. reflexivity.
Qed.

Lemma select_target_json path :
  endswith path (lit ".json") = true -> select_target (Some path) = JsonFile path.
Proof. intros H. unfold select_target. rewrite H. reflexivity. Qed.

(** [dump_output] by whether its target accepts the payload. *)
Lemma dump_output_ends self data w :
  if accepts (select_target (output self)) data w
  then dump_output isprintable self data w
       = Returns tt (rendered isprintable (select_target (output self)) data w)
  else exists msg w0,
         dump_output isprintable self data w
         = SystemExit 1 (echo (lit "Error while writing output: " ++ msg) w0)
         /\ console w0 = console w /\ open_error w0 = open_error w.
Proof.
  rewrite dump_output_render.
  destruct (accepts (select_target (output self)) data w) eqn:E.
  - apply render_accepts, E.
  - apply render_rejects, E.
Qed.

Lemma last_echo s w : last (console (echo s w)) = Some s.
Proof. cbn. apply last_snoc. Qed.

(** [process_response] returns or exits with status 1 after an error line. *)
Lemma process_response_ends self response w :
  (exists w', process_response isprintable self response w = Returns tt w')
  \/ (exists w' msg,
        process_response isprintable self response w = SystemExit 1 w'
        /\ (last (console w') = Some (lit "HTTP Error: " ++ msg)
            \/ last (console w') = Some (lit "Error: " ++ msg)
            \/ last (console w') = Some (lit "Error while writing output: " ++ msg))).
Proof.
  rewrite process_response_cases. cbv zeta.
  set (w1 := echo (status_line response) w).
  assert (Hdump : forall payload,
    (exists w', dump_output isprintable self payload w1 = Returns tt w')
    \/ (exists w' msg,
          dump_output isprintable self payload w1 = SystemExit 1 w'
          /\ last (console w') = Some (lit "Error while writing output: " ++ msg))).
  { intros payload. pose proof (dump_output_ends self payload w1) as H.
    destruct (accepts (select_target (output self)) payload w1).
    - left. eexists. exact H.
    - right. destruct H as (msg & w0 & H & _). eexists _, msg.
      split; [exact H|apply last_echo]. }
  destruct (http_error response).
  { right. eexists _, _. split; [reflexivity|left; apply last_echo]. }
  destruct (bool_decide (method self = lit "get")).
  { destruct (json response) as [msg|payload].
    - right. eexists _, msg. split; [reflexivity|right; left; apply last_echo].
    - destruct (Hdump payload) as [[w' H] | (w' & msg & H & Hlast)]; rewrite H.
      + left. eexists. reflexivity.
      + right. exists w', msg. split; [reflexivity|right; right; exact Hlast]. }
  destruct (bool_decide (method self = lit "post")).
  { destruct (json response) as [msg|payload].
    - right. eexists _, msg. split; [reflexivity|right; left; apply last_echo].
    - destruct (Hdump payload) as [[w' H] | (w' & msg & H & Hlast)]; rewrite H.
      + destruct (status_code response =? 201)%Z.
        * left. eexists. reflexivity.
        * right. eexists _, (text response).
          split; [reflexivity|right; left; apply last_echo].
      + right. exists w', msg. split; [reflexivity|right; right; exact Hlast]. }
  left. eexists. reflexivity.
Qed.

(** ** Further properties of the program *)


(** X7. Given a response whose status is no HTTP error, a client whose
    method is neither [get] nor [post] prints the status line and returns:
    the body is not parsed and nothing is output. *)
Theorem other_method_only_prints_status self response w :
  method self <> lit "get" ->
  method self <> lit "post" ->
  ~ (400 <= status_code response < 600)%Z ->
  process_response isprintable self response w
  = Returns tt (echo (status_line response) w).
Proof.
  intros Hget Hpost Hcode. rewrite process_response_cases. cbv zeta.
  destruct (http_error response) eqn:E; [apply http_error_spec in E; contradiction|].
  rewrite !bool_decide_eq_false_2 by assumption. reflexivity.
Qed.

(** X8. An exception of the network call is not caught: when the call
    [main] makes for a [get] or a [post] raises, [main] ends with that
    exception, having printed nothing and written no file. *)
Theorem transport_failure_escapes args msg w :
  (args_method args = lit "get"
   /\ transport {| req_verb := GET; req_url := BASE_URL ++ args_endpoint args;
                   req_data := None; req_headers := [] |} = inl msg)
  \/ (args_method args = lit "post"
      /\ transport {| req_verb := POST; req_url := BASE_URL ++ args_endpoint args;
                      req_data := args_data args;
                      req_headers := [(lit "Content-Type", lit "application/json")] |}
         = inl msg) ->
  main isprintable transport args w = Raises (Exception msg) w
  /\ exit_code (main isprintable transport args w) = 1%Z.
Proof.
  intros [[Hm Ht] | [Hm Ht]].
  - rewrite (main_get args w Hm), Ht. split; reflexivity.
  - rewrite (main_post args w Hm), Ht. split; reflexivity.
Qed.

(** X9. No exception leaves [process_response]: it returns, or it exits
    with status 1, and then the last line printed starts with
    [HTTP Error: ], [Error: ] or [Error while writing output: ]. *)
Theorem process_response_never_raises self response w :
  (exists w', process_response isprintable self response w = Returns tt w')
  \/ (exists w' msg,
        process_response isprintable self response w = SystemExit 1 w'
        /\ (last (console w') = Some (lit "HTTP Error: " ++ msg)
            \/ last (console w') = Some (lit "Error: " ++ msg)
            \/ last (console w') = Some (lit "Error while writing output: " ++ msg))).
Proof. exact (process_response_ends self response w). Qed.

(** X10. [main] changes no file other than the one named by [--output]:
    every other path keeps its content, nothing at all is written when the
    output goes to standard output, and the files that can be opened stay
    the same. *)
Theorem main_touches_only_output args w :
  (forall p, args_output args <> Some p ->
     files (final (main isprintable transport args w)) !! p = files w !! p)
  /\ (select_target (args_output args) = Stdout ->
      files (final (main isprintable transport args w)) = files w)
  /\ open_error (final (main isprintable transport args w)) = open_error w.
Proof.
  destruct (main_frame args w) as [Hopen Hfiles].
  split; [|split; [|exact Hopen]].
  - intros p Hp. apply Hfiles; intros E; apply Hp; apply select_target_path;
      [left|right]; exact E.
  - intros Hstdout. apply map_eq. intros p.
    apply Hfiles; rewrite Hstdout; discriminate.
Qed.



(** X13. With a [.csv] target that can be opened, a list whose first
    element is not a dict empties the file, prints the text of the
    [AttributeError] for [keys] and exits with status 1. *)
Theorem csv_first_element_not_a_mapping self path first rest w :
  output self = Some path ->
  endswith path (lit ".csv") = true ->
  open_error w path = None ->
  is_dict first = false ->
  dump_output isprintable self (PList (first :: rest)) w
  = SystemExit 1
      (echo (lit "Error while writing output: " ++ no_attribute first (lit "keys"))
         (store path [] w)).
Proof.
  intros Hout Hcsv Hopen Hfirst.
  rewrite dump_output_render, Hout, (select_target_csv path Hcsv).
  apply render_csv_first_not_dict; assumption.
Qed.


(** X15. [dump_output] overwrites: when it returns, running it again on
    the same payload returns as well and leaves the same files. *)
Theorem dump_output_twice self data w w1 :
  dump_output isprintable self data w = Returns tt w1 ->
  exists w2,
    dump_output isprintable self data w1 = Returns tt w2 /\ files w2 = files w1.
Proof.
  intros H. pose proof (dump_output_ends self data w) as H1.
  destruct (accepts (select_target (output self)) data w) eqn:Ea.
  - rewrite H in H1. inversion H1; subst w1.
    pose proof (dump_output_ends self data
                  (rendered isprintable (select_target (output self)) data w)) as H2.
    rewrite (accepts_open_error _ _ w) in H2 by apply rendered_open_error.
    rewrite Ea in H2. eexists. split; [exact H2|apply rendered_twice].
  - destruct H1 as (msg & w0 & H1 & _). rewrite H in H1. discriminate H1.
Qed.

(** X16. The JSON text [dump_output] prints or writes holds only
    printable ASCII characters and line feeds, whatever the strings of the
    payload. *)
Theorem json_output_is_ascii self data w w' :
  dump_output isprintable self data w = Returns tt w' ->
  match select_target (output self) with
  | Stdout => exists line, console w' = console w ++ [line] /\ Forall plain line
  | JsonFile path => exists content, files w' !! path = Some content /\ Forall plain content
  | CsvFile _ => True
  end.
Proof.
  intros H. pose proof (dump_output_ends self data w) as H1.
  destruct (accepts (select_target (output self)) data w) eqn:Ea.
  - rewrite H in H1. inversion H1; subst w'.
    destruct (select_target (output self)) as [|path|path]; [| |exact I].
    + exists (json_dumps data). split; [reflexivity|apply json_dumps_plain].
    + exists (json_dumps data). split; [apply lookup_insert_eq|apply json_dumps_plain].
  - destruct H1 as (msg & w0 & H1 & _). rewrite H in H1. discriminate H1.
Qed.

(** X17. A [post] leaves the files a [get] leaves for the same response
    and output path: the output is written before the status is compared
    with 201. *)
Theorem post_writes_what_get_writes getter poster response w :
  method getter = lit "get" ->
  method poster = lit "post" ->
  output poster = output getter ->
  files (final (process_response isprintable poster response w))
  = files (final (process_response isprintable getter response w)).
Proof.
  intros Hget Hpost Hout. rewrite !process_response_cases. cbv zeta.
  rewrite Hget, Hpost.
  change (bool_decide (lit "get" = lit "get")) with true.
  change (bool_decide (lit "post" = lit "get")) with false.
  change (bool_decide (lit "post" = lit "post")) with true. cbv iota.
  destruct (http_error response); [reflexivity|].
  destruct (json response) as [msg|payload]; [reflexivity|].
  rewrite !dump_output_render, Hout.
  destruct (render isprintable (select_target (output getter)) payload
              (echo (status_line response) w)) as [[] w2|code w2|e w2];
    [|reflexivity|reflexivity].
  destruct (status_code response =? 201)%Z; reflexivity.
Qed.

(** X18. From the arguments to the file: for a [get] with a [.json]
    output path that can be opened, when the network answers with a status
    that is no HTTP error and a body that parses to a payload, [main] ends
    with status 0, prints the status line only, and the file read back with
    [json.load] gives the payload. *)
Theorem main_get_json_file args path response payload w :
  args_method args = lit "get" ->
  args_output args = Some path ->
  endswith path (lit ".json") = true ->
  transport {| req_verb := GET; req_url := BASE_URL ++ args_endpoint args;
               req_data := None; req_headers := [] |} = inr response ->
  ~ (400 <= status_code response < 600)%Z ->
  json response = inr payload ->
  is_payload payload = true ->
  open_error w path = None ->
  exists w' content,
    main isprintable transport args w = Returns tt w'
    /\ console w' = console w ++ [status_line response]
    /\ files w' !! path = Some content
    /\ json_loads content = Some payload.
Proof.
  intros Hm Hout Hjson Ht Hcode Hbody Hok Hopen.
  rewrite (main_get args w Hm), Ht.
  assert (Hclient : method (client_of args) = lit "get").
  { unfold client_of. destruct (args_output args) as [[|? ?]|]; exact Hm. }
  rewrite (process_response_get isprintable (client_of args) response payload w
             Hclient Hcode Hbody).
  rewrite dump_output_render, output_client_of, Hout, (select_target_json path Hjson).
  rewrite render_json_opened by exact Hopen.
  eexists _, _. split; [reflexivity|]. split; [reflexivity|].
  split; [apply lookup_insert_eq|apply json_loads_dumps; exact Hok].
Qed.



End Program.

(** ** The further properties on the example runs *)


(** X7 on the same client and a response with status 200. *)
Lemma other_method_example :
  process_response ascii_table (RestfulClient_init (lit "put") (lit "/posts") None)
    (respond 200 "OK" (lit "[]") (inr (PList []))) empty_world
  = Returns tt (echo (lit "HTTP Status Code: 200") empty_world).
Proof.
  apply (other_method_only_prints_status ascii_table
           (RestfulClient_init (lit "put") (lit "/posts") None)
           (respond 200 "OK" (lit "[]") (inr (PList []))) empty_world);
    [intros H; cbv in H; discriminate H|intros H; cbv in H; discriminate H|cbn; lia].
Defined.

(** X8 on a network that refuses the connection. *)
Lemma transport_failure_example :
  main ascii_table refusing args_get_json empty_world
  = Raises (Exception (lit "Connection refused")) empty_world
  /\ exit_code (main ascii_table refusing args_get_json empty_world) = 1%Z.
Proof.
  exact (transport_failure_escapes ascii_table refusing args_get_json
           (lit "Connection refused") empty_world (or_introl (conj eq_refl eq_refl))).
Defined.


(** X13 on the payload [[1]]. *)
Lemma csv_first_element_example :
  dump_output ascii_table get_csv numbers world_with_csv
  = SystemExit 1
      (echo (lit "Error while writing output: 'int' object has no attribute 'keys'")
         (store (lit "out.csv") [] world_with_csv)).
Proof.
  exact (csv_first_element_not_a_mapping ascii_table get_csv (lit "out.csv") (PInt 1) []
           world_with_csv eq_refl eq_refl eq_refl eq_refl).
Defined.


(** X15 on a [.json] target. *)
Lemma dump_output_twice_example :
  exists w2,
    dump_output ascii_table get_json two_rows
      (store (lit "out.json") (json_dumps two_rows) empty_world)
    = Returns tt w2
    /\ files w2 = files (store (lit "out.json") (json_dumps two_rows) empty_world).
Proof.
  exact (dump_output_twice ascii_table get_json two_rows empty_world
           (store (lit "out.json") (json_dumps two_rows) empty_world) eq_refl).
Defined.

(** X16 on a string that holds the letter e with an acute accent: it is
    printed as an escape. *)
Lemma json_output_is_ascii_example :
  exists line,
    console (echo (json_dumps (PStr [233])) empty_world) = console empty_world ++ [line]
    /\ Forall plain line.
Proof.
  exact (json_output_is_ascii ascii_table post_stdout (PStr [233]) empty_world
           (echo (json_dumps (PStr [233])) empty_world) eq_refl).
Defined.

(** X17 on a response with status 200: the POST exits with status 1 and
    has written the file all the same. *)
Lemma post_writes_what_get_writes_example :
  files (final (process_response ascii_table
                  (set_output post_stdout (Some (lit "out.json")))
                  (respond 200 "OK" (json_dumps created) (inr created)) empty_world))
  = files (final (process_response ascii_table get_json
                    (respond 200 "OK" (json_dumps created) (inr created)) empty_world)).
Proof.
  exact (post_writes_what_get_writes ascii_table get_json
           (set_output post_stdout (Some (lit "out.json")))
           (respond 200 "OK" (json_dumps created) (inr created)) empty_world
           eq_refl eq_refl eq_refl).
Defined.

(** X18 on [get /posts -o out.json] and the network that answers. *)
Lemma main_get_json_file_example :
  exists w' content,
    main ascii_table answering args_get_json empty_world = Returns tt w'
    /\ console w' = console empty_world ++ [lit "HTTP Status Code: 200"]
    /\ files w' !! lit "out.json" = Some content
    /\ json_loads content = Some two_rows.
Proof.
  exact (main_get_json_file ascii_table answering args_get_json (lit "out.json")
           (respond 200 "OK" (json_dumps two_rows) (inr two_rows)) two_rows empty_world
           eq_refl eq_refl eq_refl eq_refl ltac:(cbn; lia) eq_refl eq_refl eq_refl).
Defined.
